(** * Bias-audit demo dashboard: synthetic data generator and periodic updater

    A shallow embedding of [src/components/BiasAuditDashboard.tsx].

    Conventions of the embedding.
    - A JavaScript [number] that carries a score is a real number ([R]); the
      decimal literals of the source are read exactly and [Math.sin] is the
      real sine.  Head counts (integer literals) are kept in [Z].
    - A [Date] or a [Dayjs] is its epoch time in milliseconds ([Z]).
    - [Math.random] is stateful: the runtime supplies the sequence of its
      successive results and every function that draws threads the number of
      draws made so far.
    - React state is one record; an event handler or the timer callback is a
      function from state to state. *)

From Stdlib Require Import Reals Lra Lia ZArith List String Bool Arith.
From Stdlib Require Import Sorting.Sorted.
Import ListNotations.
Open Scope R_scope.

(** ** Types (lines 26-49) *)

Inductive Status := excellent | moderate | high_risk.
Inductive Trend := uptrend | stable | dropping.
Inductive Severity := low | medium | high.

Definition Date := Z.
Definition Dayjs := Z.

Record BiasMetric := {
  name : string;
  value : R;
  pValue : R;
  status : Status;
  interpretation : string;
  trend : Trend
}.

Record AlertItem := {
  id : string;
  timestamp : Date;
  severity : Severity;
  title : string;
  message : string;
  metric : string
}.

Record GenderCounts := { male : Z; female : Z; non_binary : Z }.
Record AgeCounts := { age_18_25 : Z; age_26_35 : Z; age_36_45 : Z; age_46_plus : Z }.
Record EthnicityCounts := { white : Z; black : Z; hispanic : Z; asian : Z; other : Z }.

Record DemographicData := {
  gender : GenderCounts;
  age : AgeCounts;
  ethnicity : EthnicityCounts
}.

Record TimePoint := {
  date : Date;
  overall_bias : R;
  gender_bias : R;
  age_bias : R;
  ethnic_bias : R;
  socioeconomic_bias : R
}.

Record DummyData := {
  biasMetrics : list BiasMetric;
  alerts : list AlertItem;
  demographicData : DemographicData;
  timeSeriesData : list TimePoint
}.

(** ** The runtime the component runs on

    [Math_random n] is the result of the [n]-th call of [Math.random()] since
    the page was loaded; [subtract_days t n] is
    [dayjs(t).subtract(n, 'day')], which depends on the local calendar. *)

Record Runtime := {
  Math_random : nat -> R;
  subtract_days : Dayjs -> Z -> Dayjs
}.

(** The runtime of a page in UTC whose generator always returns [u]. *)
Definition utc_runtime (u : R) : Runtime :=
  {| Math_random := fun _ => u;
     subtract_days := fun t n => (t - n * 86400000)%Z |}.

(** A runtime whose successive draws are 1/2, 1/3, 1/4, ... *)
Definition harmonic_runtime : Runtime :=
  {| Math_random := fun n => / INR (n + 2);
     subtract_days := fun t n => (t - n * 86400000)%Z |}.

(** ** Dummy data generation (lines 52-136) *)

Definition seedMetrics : list BiasMetric :=
  [ {| name := "Gender Bias"; value := 0.087; pValue := 0.023;
       status := moderate;
       interpretation := "Moderate gender bias detected in course completion rates";
       trend := uptrend |};
    {| name := "Age Discrimination"; value := 0.156; pValue := 0.001;
       status := high_risk;
       interpretation := "Significant age-based disparities in grade distributions";
       trend := dropping |};
    {| name := "Ethnic Fairness"; value := 0.043; pValue := 0.124;
       status := excellent;
       interpretation := "No significant ethnic bias detected";
       trend := stable |};
    {| name := "Socioeconomic Impact"; value := 0.112; pValue := 0.008;
       status := high_risk;
       interpretation := "Concerning socioeconomic disparities in learning outcomes";
       trend := dropping |} ].

Definition seedAlerts (now : Date) : list AlertItem :=
  [ {| id := "1"; timestamp := (now - 1000 * 60 * 15)%Z; severity := high;
       title := "Age Bias Threshold Exceeded";
       message := "Completion rate gap between age groups exceeded 15%";
       metric := "age_discrimination" |};
    {| id := "2"; timestamp := (now - 1000 * 60 * 45)%Z; severity := medium;
       title := "Gender Performance Gap";
       message := "Statistical significance detected in grade distributions";
       metric := "gender_bias" |};
    {| id := "3"; timestamp := (now - 1000 * 60 * 120)%Z; severity := low;
       title := "Sample Size Warning";
       message := "Insufficient data for reliable analysis in Computer Science course";
       metric := "sample_size" |} ].

Definition seedDemographics : DemographicData :=
  {| gender := {| male := 2847; female := 3156; non_binary := 97 |};
     age := {| age_18_25 := 2890; age_26_35 := 2045; age_36_45 := 998;
               age_46_plus := 167 |};
     ethnicity := {| white := 2456; black := 1234; hispanic := 1456;
                     asian := 789; other := 165 |} |}.

(** The five channel formulas of lines 128-132, each as a function of the
    index [i] and of the channel's own draw [u]. *)
Definition overall_bias_at (i : nat) (u : R) : R :=
  0.08 + sin (INR i * 0.2) * 0.02 + u * 0.01.
Definition gender_bias_at (i : nat) (u : R) : R :=
  0.087 + sin (INR i * 0.15) * 0.015 + u * 0.008.
Definition age_bias_at (i : nat) (u : R) : R :=
  0.156 - INR i * 0.002 + u * 0.01.
Definition ethnic_bias_at (i : nat) (u : R) : R :=
  0.043 + u * 0.005.
Definition socioeconomic_bias_at (i : nat) (u : R) : R :=
  0.112 + sin (INR i * 0.1) * 0.02 + u * 0.008.

Section Generator.
Variable rt : Runtime.

(** [Array.from({ length: 30 }, (_, i) => dayjs().subtract(29 - i, 'day').toDate())] *)
Definition dates (now : Date) : list Date :=
  map (fun i => subtract_days rt now (29 - Z.of_nat i)) (seq 0 30).

(** The object literal of lines 126-133 at index [i], the draws made so
    far being [k]: five calls of [Math.random], in field order. *)
Definition seriesPoint (d : Date) (i k : nat) : TimePoint :=
  {| date := d;
     overall_bias := overall_bias_at i (Math_random rt k);
     gender_bias := gender_bias_at i (Math_random rt (k + 1));
     age_bias := age_bias_at i (Math_random rt (k + 2));
     ethnic_bias := ethnic_bias_at i (Math_random rt (k + 3));
     socioeconomic_bias := socioeconomic_bias_at i (Math_random rt (k + 4)) |}.

(** [dates.map((date, i) => ...)], threading the draw counter. *)
Fixpoint mapSeries (ds : list Date) (i k : nat) : list TimePoint * nat :=
  match ds with
  | [] => ([], k)
  | d :: ds' =>
      let p := seriesPoint d i k in
      let (ps, k') := mapSeries ds' (S i) (k + 5) in
      (p :: ps, k')
  end.

(** [generateDummyData()] called at time [now] after [k] draws: the bundle
    and the number of draws made after the call. *)
Definition generateDummyData (now : Date) (k : nat) : DummyData * nat :=
  let (series, k') := mapSeries (dates now) 0 k in
  ({| biasMetrics := seedMetrics;
      alerts := seedAlerts now;
      demographicData := seedDemographics;
      timeSeriesData := series |}, k').
End Generator.

(** ** Presentation helpers (lines 187-191, 591-592, 702-706) *)

Inductive BadgeStatus := success | warning | error.

Module BiasStatus.
Record t := { status : BadgeStatus; text : string; color : string }.
End BiasStatus.

Definition getBiasStatus (score : R) : BiasStatus.t :=
  if Rlt_dec score 0.05 then
    {| BiasStatus.status := success; BiasStatus.text := "Excellent";
       BiasStatus.color := "#52c41a" |}
  else if Rlt_dec score 0.1 then
    {| BiasStatus.status := warning; BiasStatus.text := "Moderate";
       BiasStatus.color := "#faad14" |}
  else
    {| BiasStatus.status := error; BiasStatus.text := "High Risk";
       BiasStatus.color := "#f5222d" |}.

(** The [Tag] of a summary card (lines 591-593): its colour comes from the
    stored status, its text from [getBiasStatus] of the value. *)
Definition tagColor (s : Status) : string :=
  match s with
  | excellent => "green"
  | moderate => "orange"
  | high_risk => "red"
  end.

Definition summaryTag (m : BiasMetric) : string * string :=
  (tagColor (status m), BiasStatus.text (getBiasStatus (value m))).

(** The [Badge] of the Status column of the results table (lines 702-707),
    rendered from the stored status alone. *)
Definition badgeStatus (s : Status) : BadgeStatus :=
  match s with
  | excellent => success
  | moderate => warning
  | high_risk => error
  end.

Definition badgeText (s : Status) : string :=
  match s with
  | excellent => "Excellent"
  | moderate => "Moderate"
  | high_risk => "High Risk"
  end.

Definition tableBadge (m : BiasMetric) : BadgeStatus * string :=
  (badgeStatus (status m), badgeText (status m)).

(** The threshold function as the specification words it. *)
Definition spec_threshold_status (v : R) : Status :=
  if Rlt_dec v 0.05 then excellent
  else if Rlt_dec v 0.1 then moderate
  else high_risk.

(** ** Component state (lines 141-161) *)

Record Filters := {
  protectedAttributes : list string;
  outcomeVariable : string;
  dateRange : Dayjs * Dayjs;
  biasThreshold : R;
  minimumSampleSize : Z
}.

Inductive Viz := heatmapViz | demographicViz.

(** The state of a mounted dashboard together with the two pieces of the
    environment its callbacks read: the clock and the position of the random
    generator.  [memo] is the bundle kept by [useMemo(..., [])]; [interval]
    is the live [setInterval] handle, as the number of milliseconds left
    before its next firing, and [None] when no timer is registered. *)
Record Dashboard := {
  activeTab : string;
  realTimeEnabled : bool;
  selectedVisualization : option Viz;
  filters : Filters;
  memo : DummyData;
  currentBiasScore : R;
  realtimeData : list TimePoint;
  interval : option nat;
  clock : Date;
  draws : nat
}.

Definition tickPeriod : nat := 2000.

Definition set_activeTab (v : string) (s : Dashboard) : Dashboard :=
  {| activeTab := v; realTimeEnabled := realTimeEnabled s;
     selectedVisualization := selectedVisualization s; filters := filters s;
     memo := memo s; currentBiasScore := currentBiasScore s;
     realtimeData := realtimeData s; interval := interval s;
     clock := clock s; draws := draws s |}.

Definition set_selectedVisualization (v : option Viz) (s : Dashboard) : Dashboard :=
  {| activeTab := activeTab s; realTimeEnabled := realTimeEnabled s;
     selectedVisualization := v; filters := filters s;
     memo := memo s; currentBiasScore := currentBiasScore s;
     realtimeData := realtimeData s; interval := interval s;
     clock := clock s; draws := draws s |}.

Definition set_filters (v : Filters) (s : Dashboard) : Dashboard :=
  {| activeTab := activeTab s; realTimeEnabled := realTimeEnabled s;
     selectedVisualization := selectedVisualization s; filters := v;
     memo := memo s; currentBiasScore := currentBiasScore s;
     realtimeData := realtimeData s; interval := interval s;
     clock := clock s; draws := draws s |}.

Definition set_interval (v : option nat) (s : Dashboard) : Dashboard :=
  {| activeTab := activeTab s; realTimeEnabled := realTimeEnabled s;
     selectedVisualization := selectedVisualization s; filters := filters s;
     memo := memo s; currentBiasScore := currentBiasScore s;
     realtimeData := realtimeData s; interval := v;
     clock := clock s; draws := draws s |}.

Definition set_clock (v : Date) (s : Dashboard) : Dashboard :=
  {| activeTab := activeTab s; realTimeEnabled := realTimeEnabled s;
     selectedVisualization := selectedVisualization s; filters := filters s;
     memo := memo s; currentBiasScore := currentBiasScore s;
     realtimeData := realtimeData s; interval := interval s;
     clock := v; draws := draws s |}.

Definition set_dateRange (v : Dayjs * Dayjs) (f : Filters) : Filters :=
  {| protectedAttributes := protectedAttributes f;
     outcomeVariable := outcomeVariable f; dateRange := v;
     biasThreshold := biasThreshold f;
     minimumSampleSize := minimumSampleSize f |}.

Definition set_protectedAttributes (v : list string) (f : Filters) : Filters :=
  {| protectedAttributes := v;
     outcomeVariable := outcomeVariable f; dateRange := dateRange f;
     biasThreshold := biasThreshold f;
     minimumSampleSize := minimumSampleSize f |}.

Definition set_outcomeVariable (v : string) (f : Filters) : Filters :=
  {| protectedAttributes := protectedAttributes f;
     outcomeVariable := v; dateRange := dateRange f;
     biasThreshold := biasThreshold f;
     minimumSampleSize := minimumSampleSize f |}.

Definition set_biasThreshold (v : R) (f : Filters) : Filters :=
  {| protectedAttributes := protectedAttributes f;
     outcomeVariable := outcomeVariable f; dateRange := dateRange f;
     biasThreshold := v;
     minimumSampleSize := minimumSampleSize f |}.

(** [realtimeData[realtimeData.length - 1]] *)
Definition newest (w : list TimePoint) : option TimePoint :=
  nth_error w (List.length w - 1).

(** The [RangePicker] handler of lines 406-409.  The picker passes [null]
    or an array whose entries may be [null]. *)
Definition onDateRangeChange (dates : option (list (option Dayjs)))
    (prev : Filters) : Filters :=
  match dates with
  | None => prev
  | Some l =>
      if negb (List.length l =? 2)%nat then prev
      else match nth_error l 0, nth_error l 1 with
           | Some (Some d0), Some (Some d1) => set_dateRange (d0, d1) prev
           | _, _ => prev
           end
  end.

(** A selection is complete when it is an array of exactly two dates. *)
Definition completeRange (dates : option (list (option Dayjs)))
    : option (Dayjs * Dayjs) :=
  match dates with
  | Some [Some d0; Some d1] => Some (d0, d1)
  | _ => None
  end.

(** The incomplete selections: [null], an array that does not have exactly
    two entries, or an array with a [null] entry. *)
Definition incompleteSelection (dates : option (list (option Dayjs))) : Prop :=
  match dates with
  | None => True
  | Some l => List.length l <> 2%nat \/ In None l
  end.

Section Updater.
Variable rt : Runtime.

(** The state after the first render and its effects, the component being
    mounted at time [now] after [k] draws: the effect of line 163 has run
    with [realTimeEnabled = true] and registered the interval. *)
Definition mount (now : Date) (k : nat) : Dashboard :=
  let (d, k') := generateDummyData rt now k in
  {| activeTab := "overview";
     realTimeEnabled := true;
     selectedVisualization := None;
     filters := {| protectedAttributes := ["gender"; "age"]%string;
                   outcomeVariable := "completion_rate";
                   dateRange := (subtract_days rt now 30, now);
                   biasThreshold := 0.1;
                   minimumSampleSize := 30 |};
     memo := d;
     currentBiasScore := 0.092;
     realtimeData := timeSeriesData d;
     interval := Some tickPeriod;
     clock := now;
     draws := k' |}.

(** [newScore] of line 167. *)
Definition newScore (s : Dashboard) : R :=
  0.092 + (Math_random rt (draws s) - 0.5) * 0.02.

(** The point built inside the updater of lines 172-179. *)
Definition newPoint (s : Dashboard) : TimePoint :=
  {| date := clock s;
     overall_bias := newScore s;
     gender_bias := 0.087 + (Math_random rt (draws s + 1) - 0.5) * 0.01;
     age_bias := 0.156 + (Math_random rt (draws s + 2) - 0.5) * 0.015;
     ethnic_bias := 0.043 + (Math_random rt (draws s + 3) - 0.5) * 0.005;
     socioeconomic_bias := 0.112 + (Math_random rt (draws s + 4) - 0.5) * 0.02 |}.

(** The interval callback of lines 166-181. *)
Definition tick (s : Dashboard) : Dashboard :=
  {| activeTab := activeTab s; realTimeEnabled := realTimeEnabled s;
     selectedVisualization := selectedVisualization s; filters := filters s;
     memo := memo s;
     currentBiasScore := Rmax 0 (Rmin 0.3 (newScore s));
     realtimeData := tl (realtimeData s) ++ [newPoint s];
     interval := interval s;
     clock := clock s;
     draws := (draws s + 5)%nat |}.

(** [setRealTimeEnabled(b)] followed by the re-run of the effect of lines
    163-184.  Setting the value the flag already has causes no re-render;
    otherwise the clean-up clears the old interval and the body registers a
    new one only when the flag is set. *)
Definition setRealTimeEnabled (b : bool) (s : Dashboard) : Dashboard :=
  if Bool.eqb b (realTimeEnabled s) then s
  else
    {| activeTab := activeTab s; realTimeEnabled := b;
       selectedVisualization := selectedVisualization s; filters := filters s;
       memo := memo s; currentBiasScore := currentBiasScore s;
       realtimeData := realtimeData s;
       interval := if b then Some tickPeriod else None;
       clock := clock s; draws := draws s |}.

(** One millisecond passes: a registered interval whose delay runs out
    calls [tick] and is due again a full period later. *)
Definition elapse1 (s : Dashboard) : Dashboard :=
  let s' := set_clock (clock s + 1)%Z s in
  match interval s with
  | None => s'
  | Some r =>
      if (r <=? 1)%nat then tick (set_interval (Some tickPeriod) s')
      else set_interval (Some (r - 1)%nat) s'
  end.

Fixpoint elapse (ms : nat) (s : Dashboard) : Dashboard :=
  match ms with
  | O => s
  | S n => elapse n (elapse1 s)
  end.

(** What can happen to a mounted dashboard. *)
Inductive Event :=
| Elapse (ms : nat)
| SwitchChange (checked : bool)
| RangeChange (dates : option (list (option Dayjs)))
| AttributesChange (v : list string)
| OutcomeChange (v : string)
| ThresholdChange (v : R)
| TabChange (key : string)
| OpenVisualization (v : Viz)
| CloseVisualization.

Definition step (s : Dashboard) (e : Event) : Dashboard :=
  match e with
  | Elapse ms => elapse ms s
  | SwitchChange b => setRealTimeEnabled b s
  | RangeChange dates => set_filters (onDateRangeChange dates (filters s)) s
  | AttributesChange v => set_filters (set_protectedAttributes v (filters s)) s
  | OutcomeChange v => set_filters (set_outcomeVariable v (filters s)) s
  | ThresholdChange v => set_filters (set_biasThreshold v (filters s)) s
  | TabChange key => set_activeTab key s
  | OpenVisualization v => set_selectedVisualization (Some v) s
  | CloseVisualization => set_selectedVisualization None s
  end.

Definition run (evs : list Event) (s : Dashboard) : Dashboard :=
  fold_left step evs s.

(** Every draw of the generator lies in [0, 1). *)
Definition unit_draws : Prop :=
  forall n, 0 <= Math_random rt n < 1.
End Updater.

(** The specification's reading of the generator: a function of no inputs,
    so two calls on one page return equal bundles whatever the clock shows
    and however many draws were made before each. *)
Definition input_free (gen : Runtime -> Date -> nat -> DummyData * nat) : Prop :=
  forall rt now1 now2 k1 k2,
    fst (gen rt now1 k1) = fst (gen rt now2 k2).

(** ** The shape the specification gives to a time-series channel

    The initial snapshot's channel [proj], whose draw is the [slot]-th of
    the five made for a point, has the sinusoidal shape when constants
    [base], [frequency], [amplitude] and [noise] exist such that at every
    index [i] of the window the channel is
    [base + sin (i * frequency) * amplitude + draw * noise]. *)
Definition snapshot_channel_sinusoidal (proj : TimePoint -> R) (slot : nat) : Prop :=
  exists base frequency amplitude noise : R,
    forall (rt : Runtime) (now : Date) (k i : nat),
      unit_draws rt -> (i < 30)%nat ->
      option_map proj
        (nth_error (timeSeriesData (fst (generateDummyData rt now k))) i)
      = Some (base + sin (INR i * frequency) * amplitude
              + Math_random rt (k + 5 * i + slot) * noise).

Definition all_channels_sinusoidal : Prop :=
  snapshot_channel_sinusoidal overall_bias 0
  /\ snapshot_channel_sinusoidal gender_bias 1
  /\ snapshot_channel_sinusoidal age_bias 2
  /\ snapshot_channel_sinusoidal ethnic_bias 3
  /\ snapshot_channel_sinusoidal socioeconomic_bias 4.

(** The point the generator computes at index [i], written out. *)
Definition snapshotPoint (rt : Runtime) (now : Date) (k i : nat) : TimePoint :=
  {| date := subtract_days rt now (29 - Z.of_nat i);
     overall_bias :=
       0.08 + sin (INR i * 0.2) * 0.02 + Math_random rt (k + 5 * i) * 0.01;
     gender_bias :=
       0.087 + sin (INR i * 0.15) * 0.015 + Math_random rt (k + 5 * i + 1) * 0.008;
     age_bias :=
       0.156 - INR i * 0.002 + Math_random rt (k + 5 * i + 2) * 0.01;
     ethnic_bias :=
       0.043 + Math_random rt (k + 5 * i + 3) * 0.005;
     socioeconomic_bias :=
       0.112 + sin (INR i * 0.1) * 0.02 + Math_random rt (k + 5 * i + 4) * 0.008 |}.

(** What a metric shows agrees with the threshold function of its value:
    the stored status, the summary card's tag and the table's badge. *)
Definition status_consistent (m : BiasMetric) : Prop :=
  status m = spec_threshold_status (value m)
  /\ summaryTag m
     = (tagColor (spec_threshold_status (value m)),
        badgeText (spec_threshold_status (value m)))
  /\ tableBadge m
     = (BiasStatus.status (getBiasStatus (value m)),
        BiasStatus.text (getBiasStatus (value m))).

Definition genderTotal (d : DemographicData) : Z :=
  (male (gender d) + female (gender d) + non_binary (gender d))%Z.
Definition ageTotal (d : DemographicData) : Z :=
  (age_18_25 (age d) + age_26_35 (age d) + age_36_45 (age d)
   + age_46_plus (age d))%Z.
Definition ethnicityTotal (d : DemographicData) : Z :=
  (white (ethnicity d) + black (ethnicity d) + hispanic (ethnicity d)
   + asian (ethnicity d) + other (ethnicity d))%Z.

(** Two states hold the same data when they agree on the memoised bundle,
    the headline score, the window and the generator's position. *)
Definition same_data (s s' : Dashboard) : Prop :=
  memo s' = memo s
  /\ currentBiasScore s' = currentBiasScore s
  /\ realtimeData s' = realtimeData s
  /\ draws s' = draws s.

(** The timer is registered exactly while the flag is set, and a registered
    timer is due within one period. *)
Definition timer_ok (s : Dashboard) : Prop :=
  match interval s with
  | None => realTimeEnabled s = false
  | Some r => realTimeEnabled s = true /\ (1 <= r <= tickPeriod)%nat
  end.

(** The headline score is the overall channel of the newest point. *)
Definition score_synced (s : Dashboard) : Prop :=
  option_map overall_bias (newest (realtimeData s)) = Some (currentBiasScore s).

(** ** Further presentation helpers *)

(** The style of the icon returned by [getTrendIcon] (lines 193-202). *)
Record TrendIcon := { iconColor : string; iconTransform : option string }.

Definition getTrendIcon (t : Trend) : TrendIcon :=
  match t with
  | uptrend => {| iconColor := "#52c41a"; iconTransform := None |}
  | dropping =>
      {| iconColor := "#f5222d"; iconTransform := Some "rotate(180deg)"%string |}
  | stable =>
      {| iconColor := "#faad14"; iconTransform := Some "rotate(90deg)"%string |}
  end.

(** The colour of an alert in the timeline (line 549). *)
Definition severityColor (s : Severity) : string :=
  match s with
  | high => "red"
  | medium => "orange"
  | low => "blue"
  end.

(** The colour of a p-value in the results table (line 692). *)
Definition pValueColor (p : R) : string :=
  if Rlt_dec p 0.05 then "#f5222d" else "#52c41a".

(** How grave a badge is, for comparing two of them. *)
Definition badgeRank (b : BadgeStatus) : nat :=
  match b with
  | success => 0
  | warning => 1
  | error => 2
  end.

(** The rows of the results table (lines 660-668):
    [biasMetrics.map((metric, index) => ({ key: index, ... }))]. *)
Module TableRow.
Record t := {
  key : nat;
  metric : string;
  value : R;
  pValue : R;
  status : Status;
  interpretation : string;
  trend : Trend
}.
End TableRow.

Fixpoint tableRowsFrom (index : nat) (ms : list BiasMetric) : list TableRow.t :=
  match ms with
  | [] => []
  | m :: ms' =>
      {| TableRow.key := index; TableRow.metric := name m; TableRow.value := value m;
         TableRow.pValue := pValue m; TableRow.status := status m;
         TableRow.interpretation := interpretation m; TableRow.trend := trend m |}
      :: tableRowsFrom (S index) ms'
  end.

Definition tableRows (ms : list BiasMetric) : list TableRow.t := tableRowsFrom 0 ms.

(** The metric a row was made from. *)
Definition rowMetric (r : TableRow.t) : BiasMetric :=
  {| name := TableRow.metric r; value := TableRow.value r; pValue := TableRow.pValue r;
     status := TableRow.status r; interpretation := TableRow.interpretation r;
     trend := TableRow.trend r |}.

(** ** Charts *)

Module Plot.
Record trace := {
  x : list Date;
  y : list R;
  name : string;
  mode : string;
  color : string;
  width : option Z
}.

(** A horizontal threshold line of the layout. *)
Record shape := {
  x0 : option Date;
  x1 : option Date;
  y0 : R;
  y1 : R;
  lineColor : string
}.

Record pie := {
  labels : list string;
  values : list Z;
  pieName : string;
  domain : R * R;
  colors : list string
}.
End Plot.

Record TrendChart := {
  traces : list Plot.trace;
  shapes : list Plot.shape
}.

(** [createTrendChart] (lines 292-363) over the current window.
    [realtimeData[0]?.date] and [realtimeData[realtimeData.length - 1]?.date]
    are undefined for an empty window. *)
Definition createTrendChart (w : list TimePoint) : TrendChart :=
  let first := option_map date (nth_error w 0) in
  let last := option_map date (newest w) in
  {| traces :=
       [ {| Plot.x := map date w; Plot.y := map overall_bias w;
            Plot.name := "Overall Bias"; Plot.mode := "lines+markers";
            Plot.color := "#1f77b4"; Plot.width := Some 3%Z |};
         {| Plot.x := map date w; Plot.y := map gender_bias w;
            Plot.name := "Gender Bias"; Plot.mode := "lines";
            Plot.color := "#ff7f0e"; Plot.width := None |};
         {| Plot.x := map date w; Plot.y := map age_bias w;
            Plot.name := "Age Bias"; Plot.mode := "lines";
            Plot.color := "#2ca02c"; Plot.width := None |};
         {| Plot.x := map date w; Plot.y := map ethnic_bias w;
            Plot.name := "Ethnic Bias"; Plot.mode := "lines";
            Plot.color := "#d62728"; Plot.width := None |} ];
     shapes :=
       [ {| Plot.x0 := first; Plot.x1 := last; Plot.y0 := 0.05;
            Plot.y1 := 0.05; Plot.lineColor := "green" |};
         {| Plot.x0 := first; Plot.x1 := last; Plot.y0 := 0.1;
            Plot.y1 := 0.1; Plot.lineColor := "orange" |};
         {| Plot.x0 := first; Plot.x1 := last; Plot.y0 := 0.2;
            Plot.y1 := 0.2; Plot.lineColor := "red" |} ] |}.

(** The two pies of [createDemographicChart] (lines 243-261); [Object.keys]
    and [Object.values] list the fields in the order of the literal. *)
Definition createDemographicChart (d : DemographicData) : list Plot.pie :=
  [ {| Plot.labels := ["male"; "female"; "non-binary"]%string;
       Plot.values := [male (gender d); female (gender d);
                       non_binary (gender d)];
       Plot.pieName := "Gender";
       Plot.domain := (0, 0.48);
       Plot.colors := ["#1f77b4"; "#ff7f0e"; "#2ca02c"]%string |};
    {| Plot.labels := ["18-25"; "26-35"; "36-45"; "46+"]%string;
       Plot.values := [age_18_25 (age d); age_26_35 (age d);
                       age_36_45 (age d); age_46_plus (age d)];
       Plot.pieName := "Age Groups";
       Plot.domain := (0.52, 1);
       Plot.colors := ["#d62728"; "#9467bd"; "#8c564b"; "#e377c2"]%string |} ].

Definition sumZ (l : list Z) : Z := fold_right Z.add 0%Z l.

(** ** Further view behaviour *)

(** [open={!!selectedVisualization}] of the modal (line 947). *)
Definition modalOpen (s : Dashboard) : bool :=
  match selectedVisualization s with
  | Some _ => true
  | None => false
  end.

(** The clean-up of the effect (line 183) when the component unmounts. *)
Definition unmount (s : Dashboard) : Dashboard := set_interval None s.

(** The events that touch only the tab, the modal or the filters. *)
Definition cosmetic (e : Event) : bool :=
  match e with
  | Elapse _ | SwitchChange _ => false
  | _ => true
  end.

(** The part of the state the cosmetic events write. *)
Definition cosmeticPart (s : Dashboard) : string * option Viz * Filters :=
  (activeTab s, selectedVisualization s, filters s).

(** The part of the state the updater and its switch read and write. *)
Definition updaterPart (s : Dashboard)
    : bool * DummyData * R * list TimePoint * option nat * Date * nat :=
  (realTimeEnabled s, memo s, currentBiasScore s, realtimeData s, interval s,
   clock s, draws s).

(** Switching the updater off and on again, then waiting [ms]. *)
Definition toggleCycle (ms : nat) : list Event :=
  [SwitchChange false; SwitchChange true; Elapse ms].

(** The points appended by the first [n] of a run of consecutive ticks. *)
Definition appended (rt : Runtime) (s : Dashboard) (n : nat) : list TimePoint :=
  map (fun j => newPoint rt (Nat.iter j (tick rt) s)) (seq 0 n).

(** Going back more days gives an earlier time, and going back no day does
    not give a later one. *)
Definition calendar_monotone (rt : Runtime) : Prop :=
  (forall t, (subtract_days rt t 0 <= t)%Z)
  /\ (forall t m n, (0 <= m <= n)%Z ->
        (subtract_days rt t n <= subtract_days rt t m)%Z).

(** The window is in time order and holds no point of the future. *)
Definition window_ordered (s : Dashboard) : Prop :=
  StronglySorted Z.le (map date (realtimeData s))
  /\ Forall (fun p => (date p <= clock s)%Z) (realtimeData s).


(** The five channel values of a point, without its date. *)
Definition undated (p : TimePoint) : R * R * R * R * R :=
  (overall_bias p, gender_bias p, age_bias p, ethnic_bias p,
   socioeconomic_bias p).

(** Two states show the same numbers: the same score, the same channel
    values along the window and the same position of the generator. *)
Definition same_values (s s' : Dashboard) : Prop :=
  draws s = draws s'
  /\ currentBiasScore s = currentBiasScore s'
  /\ map undated (realtimeData s) = map undated (realtimeData s').

(** The last complete selection of a series of picker events, [r] if there
    is none. *)
Definition lastComplete (ds : list (option (list (option Dayjs))))
    (r : Dayjs * Dayjs) : Dayjs * Dayjs :=
  fold_left (fun acc d => match completeRange d with
                          | Some r' => r'
                          | None => acc
                          end) ds r.

(** * Properties *)

(** ** The generator *)

Section GeneratorFacts.
Variable rt : Runtime.

Lemma mapSeries_length ds : forall i k,
  List.length (fst (mapSeries rt ds i k)) = List.length ds.
Proof.
  induction ds as [|d ds IH]; intros i k; cbn [mapSeries]; [reflexivity|].
  specialize (IH (S i) (k + 5)%nat).
  destruct (mapSeries rt ds (S i) (k + 5)) as [ps k']. cbn in *. now rewrite IH.
Qed.

Lemma mapSeries_draws ds : forall i k,
  snd (mapSeries rt ds i k) = (k + 5 * List.length ds)%nat.
Proof.
  induction ds as [|d ds IH]; intros i k; cbn [mapSeries].
  - cbn. lia.
  - specialize (IH (S i) (k + 5)%nat).
    destruct (mapSeries rt ds (S i) (k + 5)) as [ps k']. cbn in *. lia.
Qed.

(** Mapping over dates that are themselves computed from the index. *)
Lemma mapSeries_seq (f : nat -> Date) n : forall a k,
  fst (mapSeries rt (map f (seq a n)) a k)
  = map (fun i => seriesPoint rt (f i) i (k + 5 * (i - a))) (seq a n).
Proof.
  induction n as [|n IH]; intros a k; cbn [seq map mapSeries]; [reflexivity|].
  specialize (IH (S a) (k + 5)%nat).
  destruct (mapSeries rt (map f (seq (S a) n)) (S a) (k + 5)) as [ps k'].
  cbn [fst] in *. subst ps. f_equal.
  - f_equal. lia.
  - apply map_ext_in. intros i Hi. apply in_seq in Hi. f_equal. lia.
Qed.

Lemma seriesPoint_snapshot now k i :
  seriesPoint rt (subtract_days rt now (29 - Z.of_nat i)) i (k + 5 * (i - 0))
  = snapshotPoint rt now k i.
Proof.
  unfold seriesPoint, snapshotPoint, overall_bias_at, gender_bias_at,
    age_bias_at, ethnic_bias_at, socioeconomic_bias_at.
  rewrite Nat.sub_0_r. reflexivity.
Qed.

Lemma generated_series now k :
  timeSeriesData (fst (generateDummyData rt now k))
  = map (snapshotPoint rt now k) (seq 0 30).
Proof.
  unfold generateDummyData, dates.
  pose proof (mapSeries_seq
    (fun i => subtract_days rt now (29 - Z.of_nat i)) 30 0 k) as H.
  destruct (mapSeries rt _ 0 k) as [ps k']. cbn [fst timeSeriesData] in *.
  rewrite H. apply map_ext. intros i. apply seriesPoint_snapshot.
Qed.

Lemma generated_point now k i : (i < 30)%nat ->
  nth_error (timeSeriesData (fst (generateDummyData rt now k))) i
  = Some (snapshotPoint rt now k i).
Proof.
  intros Hi. rewrite generated_series.
  rewrite nth_error_map, nth_error_seq.
  destruct (Nat.ltb_spec i 30) as [_|Hge]; [reflexivity | lia].
Qed.

Lemma generated_fixed_parts now k :
  biasMetrics (fst (generateDummyData rt now k)) = seedMetrics
  /\ alerts (fst (generateDummyData rt now k)) = seedAlerts now
  /\ demographicData (fst (generateDummyData rt now k)) = seedDemographics.
Proof.
  unfold generateDummyData.
  destruct (mapSeries rt (dates rt now) 0 k) as [ps k']. cbn. auto.
Qed.

Lemma generated_draws now k :
  snd (generateDummyData rt now k) = (k + 150)%nat.
Proof.
  unfold generateDummyData.
  pose proof (mapSeries_draws (dates rt now) 0 k) as H.
  destruct (mapSeries rt (dates rt now) 0 k) as [ps k']. cbn [snd] in *.
  rewrite H. unfold dates. rewrite length_map, length_seq. reflexivity.
Qed.
End GeneratorFacts.

Lemma utc_runtime_unit_draws u : 0 <= u < 1 -> unit_draws (utc_runtime u).
Proof. intros Hu n. exact Hu. Qed.

Lemma harmonic_runtime_unit_draws : unit_draws harmonic_runtime.
Proof.
  intros n. cbn [Math_random harmonic_runtime].
  assert (2 <= INR (n + 2)) as Hn.
  { rewrite plus_INR. pose proof (pos_INR n). simpl (INR 2). lra. }
  split.
  - left. apply Rinv_0_lt_compat. lra.
  - rewrite <- Rinv_1. apply Rinv_lt_contravar; lra.
Qed.

(** A line is not a sinusoid: no constants fit the age channel at the
    indices 0, 1 and 2. *)
Lemma age_channel_not_sinusoidal : ~ snapshot_channel_sinusoidal age_bias 2.
Proof.
  intros (b & f & a & n & H).
  assert (unit_draws (utc_runtime 0)) as Hu
    by (apply utc_runtime_unit_draws; lra).
  pose proof (H (utc_runtime 0) 0%Z 0%nat 0%nat Hu ltac:(lia)) as H0.
  pose proof (H (utc_runtime 0) 0%Z 0%nat 1%nat Hu ltac:(lia)) as H1.
  pose proof (H (utc_runtime 0) 0%Z 0%nat 2%nat Hu ltac:(lia)) as H2.
  rewrite generated_point in H0, H1, H2 by lia.
  cbn [option_map age_bias snapshotPoint Math_random utc_runtime] in H0, H1, H2.
  injection H0 as H0. injection H1 as H1. injection H2 as H2.
  simpl INR in H0, H1, H2.
  replace (0 * f) with 0 in H0 by ring. rewrite sin_0 in H0.
  replace (1 * f) with f in H1 by ring.
  replace ((1 + 1) * f) with (2 * f) in H2 by ring. rewrite sin_2a in H2.
  pose proof (sin2_cos2 f) as Hsc. unfold Rsqr in Hsc.
  assert (b = 0.156) as Hb by lra. subst b.
  assert (sin f * a = - 0.002) as Hs by lra.
  assert (cos f * (sin f * a) = - 0.002) as Hc by lra.
  rewrite Hs in Hc.
  assert (cos f = 1) as Hcos by lra.
  rewrite Hcos in Hsc.
  assert (sin f * sin f = 0) as Hz by lra.
  assert (sin f = 0) as Hsin by nra.
  rewrite Hsin in Hs. lra.
Qed.

(** C1, as stated, fails: the five channels do not all have the sinusoidal
    shape, the age channel being a linear trend. *)
Lemma C1_not_all_channels_sinusoidal : ~ all_channels_sinusoidal.
Proof.
  intros (_ & _ & Hage & _). exact (age_channel_not_sinusoidal Hage).
Qed.

Ltac channel_shape :=
  intros rt now k i _ Hi; rewrite generated_point by exact Hi;
  cbn [option_map overall_bias gender_bias ethnic_bias socioeconomic_bias
       snapshotPoint];
  rewrite ?Nat.add_0_r; f_equal; ring.

(** C1 (amended): the series of the initial snapshot is, index by index,
    the point written out in [snapshotPoint], every channel with a draw of
    its own.  The overall, gender and socioeconomic channels are a base plus
    [sin (i * frequency) * amplitude] plus a scaled draw; the ethnic channel
    has no term in [i] (it has the shape only with amplitude 0); the age
    channel is the line [0.156 - i * 0.002] plus a scaled draw. *)
Theorem C1_generated_channel_formulas :
  (forall rt now k,
     timeSeriesData (fst (generateDummyData rt now k))
     = map (snapshotPoint rt now k) (seq 0 30))
  /\ snapshot_channel_sinusoidal overall_bias 0
  /\ snapshot_channel_sinusoidal gender_bias 1
  /\ snapshot_channel_sinusoidal socioeconomic_bias 4
  /\ snapshot_channel_sinusoidal ethnic_bias 3.
Proof.
  split; [exact generated_series|].
  split; [exists 0.08, 0.2, 0.02, 0.01; channel_shape|].
  split; [exists 0.087, 0.15, 0.015, 0.008; channel_shape|].
  split; [exists 0.112, 0.1, 0.02, 0.008; channel_shape|].
  exists 0.043, 0, 0, 0.005; channel_shape.
Qed.

Lemma generated_bundle rt now k :
  generateDummyData rt now k
  = ({| biasMetrics := seedMetrics;
        alerts := seedAlerts now;
        demographicData := seedDemographics;
        timeSeriesData := map (snapshotPoint rt now k) (seq 0 30) |},
     (k + 150)%nat).
Proof.
  pose proof (generated_series rt now k) as Hs.
  pose proof (generated_draws rt now k) as Hd.
  unfold generateDummyData in *.
  destruct (mapSeries rt (dates rt now) 0 k) as [ps k'].
  cbn [fst snd timeSeriesData] in *. now subst.
Qed.

(** ** Status tags *)

Lemma getBiasStatus_cases v :
  (v < 0.05 /\ getBiasStatus v
     = {| BiasStatus.status := success; BiasStatus.text := "Excellent";
          BiasStatus.color := "#52c41a" |}
          /\ spec_threshold_status v = excellent)
  \/ (0.05 <= v < 0.1 /\ getBiasStatus v
     = {| BiasStatus.status := warning; BiasStatus.text := "Moderate";
          BiasStatus.color := "#faad14" |}
          /\ spec_threshold_status v = moderate)
  \/ (0.1 <= v /\ getBiasStatus v
     = {| BiasStatus.status := error; BiasStatus.text := "High Risk";
          BiasStatus.color := "#f5222d" |}
          /\ spec_threshold_status v = high_risk).
Proof.
  unfold getBiasStatus, spec_threshold_status.
  destruct (Rlt_dec v 0.05) as [H1|H1]; [left; auto|].
  destruct (Rlt_dec v 0.1) as [H2|H2]; [right; left|right; right];
    repeat split; auto; lra.
Qed.

Lemma status_consistent_intro m :
  status m = spec_threshold_status (value m) -> status_consistent m.
Proof.
  intros Hm. unfold status_consistent, summaryTag, tableBadge.
  rewrite Hm.
  destruct (getBiasStatus_cases (value m)) as [(_ & -> & ->)|[(_ & -> & ->)|(_ & -> & ->)]];
    cbn; auto.
Qed.

Lemma spec_threshold_below v : v < 0.05 -> spec_threshold_status v = excellent.
Proof.
  intros. destruct (getBiasStatus_cases v) as [(_ & _ & ->)|[(? & _)|(? & _)]];
    [reflexivity | lra | lra].
Qed.

Lemma spec_threshold_between v :
  0.05 <= v < 0.1 -> spec_threshold_status v = moderate.
Proof.
  intros. destruct (getBiasStatus_cases v) as [(? & _)|[(_ & _ & ->)|(? & _)]];
    [lra | reflexivity | lra].
Qed.

Lemma spec_threshold_above v : 0.1 <= v -> spec_threshold_status v = high_risk.
Proof.
  intros. destruct (getBiasStatus_cases v) as [(? & _)|[(? & _)|(_ & _ & ->)]];
    [lra | lra | reflexivity].
Qed.

(** C2: [getBiasStatus] is the threshold function (below 0.05 excellent,
    from 0.05 and below 0.1 moderate, from 0.1 high risk), and for each of
    the four metrics of the snapshot the stored status, the tag of the
    summary card and the badge of the table agree with it. *)
Theorem C2_status_tag_matches_threshold :
  (forall v,
     BiasStatus.status (getBiasStatus v) = badgeStatus (spec_threshold_status v)
     /\ BiasStatus.text (getBiasStatus v) = badgeText (spec_threshold_status v)
     /\ (spec_threshold_status v = excellent <-> v < 0.05)
     /\ (spec_threshold_status v = moderate <-> 0.05 <= v < 0.1)
     /\ (spec_threshold_status v = high_risk <-> 0.1 <= v))
  /\ (forall rt now k,
        Forall status_consistent (biasMetrics (fst (generateDummyData rt now k)))).
Proof.
  split.
  - intros v.
    destruct (getBiasStatus_cases v) as [(Hv & -> & ->)|[(Hv & -> & ->)|(Hv & -> & ->)]];
      cbn [BiasStatus.status BiasStatus.text badgeStatus badgeText];
      repeat split; try reflexivity; try discriminate; intros; try lra.
  - intros rt now k. rewrite generated_bundle. cbn [fst biasMetrics].
    unfold seedMetrics.
    repeat constructor; apply status_consistent_intro; cbn [status value];
      symmetry;
      first [ apply spec_threshold_below; lra
            | apply spec_threshold_between; lra
            | apply spec_threshold_above; lra ].
Qed.

(** ** Seed literals *)

(** C9: whatever the clock and the draws, the snapshot's metric values are
    0.087, 0.156, 0.043 and 0.112, it holds exactly three alerts, and its
    demographic counts are the seed literals, each category summing to 6100
    (gender: 2847 + 3156 + 97). *)
Theorem C9_snapshot_matches_seed_literals : forall rt now k,
  let d := fst (generateDummyData rt now k) in
  map value (biasMetrics d) = [0.087; 0.156; 0.043; 0.112]
  /\ List.length (alerts d) = 3%nat
  /\ map id (alerts d) = ["1"; "2"; "3"]%string
  /\ gender (demographicData d)
     = {| male := 2847; female := 3156; non_binary := 97 |}
  /\ age (demographicData d)
     = {| age_18_25 := 2890; age_26_35 := 2045; age_36_45 := 998;
          age_46_plus := 167 |}
  /\ ethnicity (demographicData d)
     = {| white := 2456; black := 1234; hispanic := 1456; asian := 789;
          other := 165 |}
  /\ genderTotal (demographicData d) = (2847 + 3156 + 97)%Z
  /\ genderTotal (demographicData d) = 6100%Z
  /\ ageTotal (demographicData d) = 6100%Z
  /\ ethnicityTotal (demographicData d) = 6100%Z.
Proof.
  intros rt now k d. subst d. rewrite generated_bundle.
  cbn [fst biasMetrics alerts demographicData].
  repeat split; reflexivity.
Qed.

(** ** Determinism of the generator *)

(** C5, as stated, fails: two successive calls on one page, even within
    the same millisecond, differ in the first point of the series (draws
    1/2 and 1/152 in [harmonic_runtime]). *)
Lemma C5_generator_not_input_free : ~ input_free generateDummyData.
Proof.
  intros H.
  specialize (H harmonic_runtime 0%Z 0%Z 0%nat 150%nat).
  apply (f_equal (fun d => option_map overall_bias
                             (nth_error (timeSeriesData d) 0))) in H.
  rewrite !generated_point in H by lia.
  cbn [option_map overall_bias snapshotPoint Math_random harmonic_runtime] in H.
  injection H as H. lra.
Qed.

Lemma snapshotPoint_ext rt1 rt2 now k1 k2 i :
  (forall t n, subtract_days rt1 t n = subtract_days rt2 t n) ->
  (forall j, (j < 150)%nat -> Math_random rt1 (k1 + j) = Math_random rt2 (k2 + j)) ->
  (i < 30)%nat ->
  snapshotPoint rt1 now k1 i = snapshotPoint rt2 now k2 i.
Proof.
  intros Hsub Hdraw Hi. unfold snapshotPoint.
  rewrite Hsub.
  rewrite <- !Nat.add_assoc.
  rewrite !Hdraw by lia. reflexivity.
Qed.

(** C5 (amended): a call always returns a bundle of the four parts and
    makes 150 draws.  The metrics and the demographic counts are the same in
    every call; the alerts are fixed up to their timestamps, which are
    offsets from the clock; the series is computed from the clock and the
    draws.  Hence two calls that read the same clock, use the same calendar
    and draw the same 150 values return equal bundles. *)
Theorem C5_generator_total_and_determined_by_environment :
  forall rt1 rt2 now k1 k2,
    (forall t n, subtract_days rt1 t n = subtract_days rt2 t n) ->
    (forall j, (j < 150)%nat ->
       Math_random rt1 (k1 + j) = Math_random rt2 (k2 + j)) ->
    (exists series,
       generateDummyData rt1 now k1
       = ({| biasMetrics := seedMetrics; alerts := seedAlerts now;
             demographicData := seedDemographics;
             timeSeriesData := series |}, (k1 + 150)%nat)
       /\ List.length series = 30%nat)
    /\ fst (generateDummyData rt1 now k1) = fst (generateDummyData rt2 now k2).
Proof.
  intros rt1 rt2 now k1 k2 Hsub Hdraw. split.
  - exists (map (snapshotPoint rt1 now k1) (seq 0 30)). split.
    + apply generated_bundle.
    + rewrite length_map, length_seq. reflexivity.
  - rewrite !generated_bundle. cbn [fst]. f_equal.
    apply map_ext_in. intros i Hi. apply in_seq in Hi.
    apply snapshotPoint_ext; auto; lia.
Qed.

(** Two calls at the same instant on a UTC page whose generator always
    returns 0.5, the second after seven draws. *)
Lemma C5_generator_total_and_determined_by_environment_witness :
  (exists series,
     generateDummyData (utc_runtime 0.5) 1700000000000%Z 0
     = ({| biasMetrics := seedMetrics; alerts := seedAlerts 1700000000000%Z;
           demographicData := seedDemographics;
           timeSeriesData := series |}, 150%nat)
     /\ List.length series = 30%nat)
  /\ fst (generateDummyData (utc_runtime 0.5) 1700000000000%Z 0)
     = fst (generateDummyData (utc_runtime 0.5) 1700000000000%Z 7).
Proof.
  apply (C5_generator_total_and_determined_by_environment
           (utc_runtime 0.5) (utc_runtime 0.5) 1700000000000%Z 0 7).
  - intros t n. reflexivity.
  - intros j Hj. reflexivity.
Defined.

(** ** The updater *)

Lemma clamp_range x : 0 <= Rmax 0 (Rmin 0.3 x) <= 0.3.
Proof.
  unfold Rmax, Rmin.
  destruct (Rle_dec 0.3 x); destruct (Rle_dec 0 _); lra.
Qed.

Lemma clamp_inside x : 0 <= x <= 0.3 -> Rmax 0 (Rmin 0.3 x) = x.
Proof.
  intros Hx. unfold Rmax, Rmin.
  destruct (Rle_dec 0.3 x); destruct (Rle_dec 0 _); lra.
Qed.

Lemma newest_snoc (w : list TimePoint) p : newest (w ++ [p]) = Some p.
Proof.
  unfold newest. rewrite length_app. cbn [List.length].
  replace (List.length w + 1 - 1)%nat with (List.length w) by lia.
  rewrite nth_error_app2 by lia. rewrite Nat.sub_diag. reflexivity.
Qed.

Lemma slide_length (w : list TimePoint) p :
  List.length w = 30%nat -> List.length (tl w ++ [p]) = 30%nat.
Proof.
  intros Hw. destruct w as [|q w]; [discriminate|].
  cbn [tl]. rewrite length_app. cbn [List.length] in *. lia.
Qed.

Section UpdaterFacts.
Variable rt : Runtime.

Lemma same_data_refl s : same_data s s.
Proof. repeat split. Qed.

Lemma elapse1_cases s :
  same_data s (elapse1 rt s)
  \/ exists s1, same_data s s1 /\ elapse1 rt s = tick rt s1.
Proof.
  unfold elapse1. destruct (interval s) as [r|].
  - destruct (r <=? 1)%nat.
    + right. eexists. split; [|reflexivity]. repeat split.
    + left. repeat split.
  - left. repeat split.
Qed.

Section Invariant.
Variable P : Dashboard -> Prop.
Hypothesis P_data : forall s s', same_data s s' -> P s -> P s'.
Hypothesis P_tick : forall s, P s -> P (tick rt s).

Lemma elapse1_invariant s : P s -> P (elapse1 rt s).
Proof.
  intros Hs. destruct (elapse1_cases s) as [Hd|(s1 & Hd & ->)].
  - exact (P_data _ _ Hd Hs).
  - apply P_tick. exact (P_data _ _ Hd Hs).
Qed.

Lemma elapse_invariant ms : forall s, P s -> P (elapse rt ms s).
Proof.
  induction ms as [|ms IH]; intros s Hs; cbn [elapse]; [exact Hs|].
  apply IH. apply elapse1_invariant. exact Hs.
Qed.

Lemma step_invariant s e : P s -> P (step rt s e).
Proof.
  intros Hs. destruct e; cbn [step];
    try solve [apply (P_data s); [repeat split; reflexivity | exact Hs]].
  - apply elapse_invariant. exact Hs.
  - unfold setRealTimeEnabled.
    destruct (Bool.eqb checked (realTimeEnabled s)); [exact Hs|].
    apply (P_data s); [repeat split | exact Hs].
Qed.

Lemma run_invariant evs : forall s, P s -> P (run rt evs s).
Proof.
  induction evs as [|e evs IH]; intros s Hs; cbn [run fold_left];
    [exact Hs|].
  apply IH. apply step_invariant. exact Hs.
Qed.
End Invariant.

Lemma mount_fields now k :
  memo (mount rt now k) = fst (generateDummyData rt now k)
  /\ realtimeData (mount rt now k)
     = timeSeriesData (fst (generateDummyData rt now k))
  /\ currentBiasScore (mount rt now k) = 0.092
  /\ draws (mount rt now k) = (k + 150)%nat
  /\ realTimeEnabled (mount rt now k) = true
  /\ interval (mount rt now k) = Some tickPeriod.
Proof.
  unfold mount. rewrite generated_bundle. cbn. repeat split.
Qed.

Lemma mount_window_length now k :
  List.length (realtimeData (mount rt now k)) = 30%nat.
Proof.
  destruct (mount_fields now k) as (_ & -> & _).
  rewrite generated_series, length_map, length_seq. reflexivity.
Qed.

Lemma window_length_run now k evs :
  List.length (realtimeData (run rt evs (mount rt now k))) = 30%nat.
Proof.
  apply (run_invariant (fun s => List.length (realtimeData s) = 30%nat)).
  - intros s s' (_ & _ & Hw & _) Hs. now rewrite Hw.
  - intros s Hs. cbn [tick realtimeData]. now apply slide_length.
  - apply mount_window_length.
Qed.

Lemma window_length_ticks now k n :
  List.length (realtimeData (Nat.iter n (tick rt) (mount rt now k))) = 30%nat.
Proof.
  induction n as [|n IH]; cbn [Nat.iter nat_rect].
  - apply mount_window_length.
  - cbn [tick realtimeData]. now apply slide_length.
Qed.
End UpdaterFacts.

(** C3: the window of the initial snapshot has 30 points and keeps exactly
    30 after any number of ticks, and in any state the dashboard can reach;
    a tick removes the oldest point and appends one new point. *)
Theorem C3_window_length_invariant : forall rt now k,
  List.length (timeSeriesData (fst (generateDummyData rt now k))) = 30%nat
  /\ (forall n,
        List.length (realtimeData (Nat.iter n (tick rt) (mount rt now k)))
        = 30%nat)
  /\ (forall evs,
        List.length (realtimeData (run rt evs (mount rt now k))) = 30%nat)
  /\ (forall s,
        realtimeData (tick rt s) = tl (realtimeData s) ++ [newPoint rt s])
  /\ (forall evs,
        exists oldest rest,
          realtimeData (run rt evs (mount rt now k)) = oldest :: rest
          /\ realtimeData (tick rt (run rt evs (mount rt now k)))
             = rest ++ [newPoint rt (run rt evs (mount rt now k))]).
Proof.
  intros rt now k.
  split; [rewrite generated_series, length_map, length_seq; reflexivity|].
  split; [apply window_length_ticks|].
  split; [apply window_length_run|].
  split; [reflexivity|].
  intros evs. pose proof (window_length_run rt now k evs) as Hlen.
  cbn [tick realtimeData].
  destruct (realtimeData (run rt evs (mount rt now k))) as [|p w];
    [discriminate|].
  exists p, w. split; reflexivity.
Qed.

Lemma newScore_range rt s :
  unit_draws rt -> 0.092 - 0.01 <= newScore rt s < 0.092 + 0.01.
Proof.
  intros Hu. unfold newScore. pose proof (Hu (draws s)). lra.
Qed.




Lemma tick_synced rt s :
  unit_draws rt ->
  currentBiasScore (tick rt s) = newScore rt s /\ score_synced (tick rt s).
Proof.
  intros Hu. pose proof (newScore_range rt s Hu) as Hr.
  assert (currentBiasScore (tick rt s) = newScore rt s) as Hc.
  { cbn [tick currentBiasScore]. apply clamp_inside. lra. }
  split; [exact Hc|].
  unfold score_synced. rewrite Hc. cbn [tick realtimeData].
  rewrite newest_snoc. reflexivity.
Qed.

(** C10: after a tick the stored score is the overall channel of the newest
    point, because the new score lies in [0.082, 0.102] and the clamp leaves
    it as it is; and the two stay equal in every later state, so that a
    reachable state either has seen no tick yet (score 0.092, 150 draws) or
    has score and newest point in agreement. *)
Theorem C10_score_equals_newest_overall : forall rt,
  unit_draws rt ->
  (forall s,
     0.082 <= newScore rt s <= 0.102
     /\ currentBiasScore (tick rt s) = newScore rt s
     /\ option_map overall_bias (newest (realtimeData (tick rt s)))
        = Some (currentBiasScore (tick rt s)))
  /\ (forall now k evs,
        let s := run rt evs (mount rt now k) in
        (draws s = (k + 150)%nat /\ currentBiasScore s = 0.092)
        \/ (draws s <> (k + 150)%nat /\ score_synced s)).
Proof.
  intros rt Hu. split.
  - intros s. pose proof (newScore_range rt s Hu) as Hr.
    destruct (tick_synced rt s Hu) as [Hc Hs].
    split; [lra|]. split; [exact Hc | exact Hs].
  - intros now k evs s. subst s.
    apply (run_invariant rt
      (fun s => (k + 150 <= draws s)%nat
                /\ ((draws s = (k + 150)%nat /\ currentBiasScore s = 0.092)
                    \/ (draws s <> (k + 150)%nat /\ score_synced s)))).
    + intros s s' (_ & Hc & Hw & Hd) Hs. unfold score_synced in *.
      rewrite Hc, Hw, Hd. exact Hs.
    + intros s [Hge _]. split; [cbn [tick draws]; lia|].
      right. split; [cbn [tick draws]; lia|].
      apply (tick_synced rt s Hu).
    + destruct (mount_fields rt now k) as (_ & _ & Hc & Hd & _).
      split; [lia|]. left. split; assumption.
Qed.

(** A page whose successive draws are 1/2, 1/3, 1/4, ... *)
Lemma C10_score_equals_newest_overall_witness :
  let rt := harmonic_runtime in
  (forall s,
     0.082 <= newScore rt s <= 0.102
     /\ currentBiasScore (tick rt s) = newScore rt s
     /\ option_map overall_bias (newest (realtimeData (tick rt s)))
        = Some (currentBiasScore (tick rt s)))
  /\ (forall now k evs,
        let s := run rt evs (mount rt now k) in
        (draws s = (k + 150)%nat /\ currentBiasScore s = 0.092)
        \/ (draws s <> (k + 150)%nat /\ score_synced s)).
Proof.
  exact (C10_score_equals_newest_overall harmonic_runtime
           harmonic_runtime_unit_draws).
Defined.

(** ** Frame of the updater *)

(** C7: a tick leaves the memoised bundle, hence the alerts, the metrics
    and the demographic snapshot, as they are, together with every other
    part of the view state; only the score, the window and the position of
    the random generator are written.  In every state the dashboard reaches
    the bundle is still the one generated at mount. *)
Theorem C7_tick_frame : forall rt,
  (forall s,
     memo (tick rt s) = memo s
     /\ alerts (memo (tick rt s)) = alerts (memo s)
     /\ biasMetrics (memo (tick rt s)) = biasMetrics (memo s)
     /\ demographicData (memo (tick rt s)) = demographicData (memo s)
     /\ filters (tick rt s) = filters s
     /\ activeTab (tick rt s) = activeTab s
     /\ selectedVisualization (tick rt s) = selectedVisualization s
     /\ realTimeEnabled (tick rt s) = realTimeEnabled s
     /\ interval (tick rt s) = interval s
     /\ clock (tick rt s) = clock s)
  /\ (forall now k evs,
        memo (run rt evs (mount rt now k)) = fst (generateDummyData rt now k)
        /\ alerts (memo (run rt evs (mount rt now k))) = seedAlerts now
        /\ biasMetrics (memo (run rt evs (mount rt now k))) = seedMetrics
        /\ demographicData (memo (run rt evs (mount rt now k)))
           = seedDemographics).
Proof.
  intros rt. split.
  - intros s. cbn [tick memo filters activeTab selectedVisualization
                   realTimeEnabled interval clock].
    repeat split.
  - intros now k evs.
    assert (memo (run rt evs (mount rt now k)) = fst (generateDummyData rt now k))
      as Hm.
    { apply (run_invariant rt
        (fun s => memo s = fst (generateDummyData rt now k))).
      - intros s s' (Hm & _) Hs. now rewrite Hm.
      - intros s Hs. exact Hs.
      - apply mount_fields. }
    rewrite Hm. rewrite generated_bundle. cbn. repeat split.
Qed.

(** ** The date-range guard *)

(** C8: a selection is incomplete ([null], not exactly two entries, or a
    [null] endpoint) exactly when it is not an array of two dates.  For such
    a selection the handler returns the filters as they are and the whole
    state is unchanged; for a complete selection it replaces [dateRange] and
    nothing else.  The handler is a total function: no selection makes it
    fail. *)
Theorem C8_date_range_guard : forall rt dates prev s,
  (incompleteSelection dates <-> completeRange dates = None)
  /\
  match completeRange dates with
  | None =>
      onDateRangeChange dates prev = prev
      /\ step rt s (RangeChange dates) = s
  | Some (d0, d1) =>
      dates = Some [Some d0; Some d1]
      /\ onDateRangeChange dates prev = set_dateRange (d0, d1) prev
      /\ dateRange (onDateRangeChange dates prev) = (d0, d1)
      /\ protectedAttributes (onDateRangeChange dates prev)
         = protectedAttributes prev
      /\ outcomeVariable (onDateRangeChange dates prev) = outcomeVariable prev
      /\ biasThreshold (onDateRangeChange dates prev) = biasThreshold prev
      /\ minimumSampleSize (onDateRangeChange dates prev)
         = minimumSampleSize prev
  end.
Proof.
  intros rt dates prev s. split.
  { destruct dates as [[|[a|] [|[b|] [|c l]]]|]; cbn;
      intuition (try discriminate; try lia; auto). }
  assert (forall l f, completeRange (Some l) = None ->
                      onDateRangeChange (Some l) f = f) as Hnone.
  { intros l f. destruct l as [|[a|] [|[b|] [|c l]]]; cbn; congruence. }
  assert (forall f, f = filters s -> set_filters f s = s) as Hset.
  { intros f ->. destruct s; reflexivity. }
  destruct dates as [l|].
  - destruct l as [|[a|] [|[b|] [|c l]]]; cbn [completeRange];
      try (split; [apply Hnone; reflexivity
                  | cbn [step]; apply Hset; apply Hnone; reflexivity]).
    cbn. repeat split.
  - cbn [completeRange]. split; [reflexivity|].
    cbn [step]. apply Hset. reflexivity.
Qed.

(** ** The timer *)

Ltac fields :=
  cbn [activeTab realTimeEnabled selectedVisualization filters memo
       currentBiasScore realtimeData interval clock draws
       set_clock set_interval set_filters set_activeTab
       set_selectedVisualization tick].

Section TimerFacts.
Variable rt : Runtime.

Lemma tickPeriod_pos : (1 <= tickPeriod)%nat.
Proof. unfold tickPeriod. lia. Qed.

Lemma set_clock_same s c : c = clock s -> set_clock c s = s.
Proof. intros ->. destruct s; reflexivity. Qed.

Lemma set_clock_twice s c c' :
  set_clock c' (set_clock c s) = set_clock c' s.
Proof. reflexivity. Qed.

(** With no timer registered, time passes and nothing else happens. *)
Lemma elapse_paused ms : forall s,
  interval s = None ->
  elapse rt ms s = set_clock (clock s + Z.of_nat ms)%Z s.
Proof.
  induction ms as [|ms IH]; intros s Hi; cbn [elapse].
  - symmetry. apply set_clock_same. cbn [Z.of_nat]. lia.
  - unfold elapse1. rewrite Hi. rewrite IH by exact Hi.
    rewrite set_clock_twice. fields. f_equal. lia.
Qed.

(** Before a registered timer is due, only its remaining delay changes. *)
Lemma elapse_waiting ms : forall s r,
  interval s = Some r -> (ms < r)%nat ->
  elapse rt ms s
  = set_interval (Some (r - ms)%nat) (set_clock (clock s + Z.of_nat ms)%Z s).
Proof.
  induction ms as [|ms IH]; intros s r Hi Hlt; cbn [elapse].
  - rewrite Nat.sub_0_r, <- Hi.
    rewrite set_clock_same by (cbn [Z.of_nat]; lia).
    destruct s; reflexivity.
  - unfold elapse1. rewrite Hi.
    destruct (Nat.leb_spec r 1) as [Hle|Hgt]; [lia|].
    rewrite (IH _ (r - 1)%nat) by (fields; first [reflexivity | lia]).
    fields. unfold set_interval, set_clock. fields.
    f_equal; [f_equal; lia | lia].
Qed.

Lemma elapse_add a : forall b s,
  elapse rt (a + b) s = elapse rt b (elapse rt a s).
Proof.
  induction a as [|a IH]; intros b s; cbn [Nat.add elapse];
    [reflexivity | apply IH].
Qed.

(** A registered timer due in [r] milliseconds fires after exactly [r]
    and is then due a full period later. *)
Lemma elapse_due s r :
  interval s = Some r -> (1 <= r)%nat ->
  elapse rt r s
  = tick rt (set_interval (Some tickPeriod)
               (set_clock (clock s + Z.of_nat r)%Z s)).
Proof.
  intros Hi Hr.
  replace r with ((r - 1) + 1)%nat at 1 by lia.
  rewrite elapse_add, (elapse_waiting _ s r Hi) by lia.
  cbn [elapse]. unfold elapse1. fields.
  replace (r - (r - 1))%nat with 1%nat by lia. cbn [Nat.leb].
  f_equal. unfold set_interval, set_clock. fields. f_equal. lia.
Qed.

(** Every firing makes five draws; a timer due in [r] fires
    [(ms + period - r) / period] times within [ms] milliseconds. *)
Lemma elapse_draws ms : forall s r,
  interval s = Some r -> (1 <= r <= tickPeriod)%nat ->
  draws (elapse rt ms s)
  = (draws s + 5 * ((ms + tickPeriod - r) / tickPeriod))%nat.
Proof.
  pose proof tickPeriod_pos as HP.
  induction ms as [|ms IH]; intros s r Hi Hr; cbn [elapse].
  - rewrite Nat.div_small by lia. lia.
  - unfold elapse1. rewrite Hi.
    destruct (Nat.leb_spec r 1) as [Hle|Hgt].
    + rewrite (IH _ tickPeriod) by (fields; first [reflexivity | lia]).
      fields.
      replace (ms + tickPeriod - tickPeriod)%nat with ms by lia.
      replace (S ms + tickPeriod - r)%nat with (ms + 1 * tickPeriod)%nat
        by lia.
      rewrite Nat.div_add by lia. lia.
    + rewrite (IH _ (r - 1)%nat) by (fields; first [reflexivity | lia]).
      fields. do 3 f_equal. lia.
Qed.

Lemma elapse_timer_ok ms : forall s, timer_ok s -> timer_ok (elapse rt ms s).
Proof.
  pose proof tickPeriod_pos as HP.
  induction ms as [|ms IH]; intros s Hs; cbn [elapse]; [exact Hs|].
  apply IH. clear IH. unfold timer_ok, elapse1 in *.
  destruct (interval s) as [r|] eqn:Hi.
  - destruct (Nat.leb_spec r 1); fields; (split; [tauto | lia]).
  - fields. rewrite Hi. exact Hs.
Qed.

Lemma setRealTimeEnabled_timer_ok b s :
  timer_ok s -> timer_ok (setRealTimeEnabled b s).
Proof.
  pose proof tickPeriod_pos as HP.
  intros Hs. unfold setRealTimeEnabled.
  destruct (Bool.eqb b (realTimeEnabled s)); [exact Hs|].
  unfold timer_ok. fields. destruct b; [split; [reflexivity | lia] | reflexivity].
Qed.

Lemma step_timer_ok s e : timer_ok s -> timer_ok (step rt s e).
Proof.
  intros Hs. destruct e; cbn [step]; try exact Hs.
  - apply elapse_timer_ok. exact Hs.
  - apply setRealTimeEnabled_timer_ok. exact Hs.
Qed.

Lemma run_timer_ok evs : forall s, timer_ok s -> timer_ok (run rt evs s).
Proof.
  induction evs as [|e evs IH]; intros s Hs; cbn [run fold_left];
    [exact Hs|].
  apply IH. apply step_timer_ok. exact Hs.
Qed.

Lemma mount_timer_ok now k : timer_ok (mount rt now k).
Proof.
  pose proof tickPeriod_pos as HP.
  destruct (mount_fields rt now k) as (_ & _ & _ & _ & He & Hi).
  unfold timer_ok. rewrite Hi. split; [exact He | lia].
Qed.

(** Switching the flag off in a state with a consistent timer. *)
Lemma pause_fields s :
  timer_ok s ->
  let paused := setRealTimeEnabled false s in
  realTimeEnabled paused = false /\ interval paused = None
  /\ same_data s paused /\ clock paused = clock s.
Proof.
  intros Hs paused. subst paused. unfold setRealTimeEnabled, timer_ok in *.
  destruct (realTimeEnabled s) eqn:He; cbn [Bool.eqb]; fields.
  - repeat split.
  - destruct (interval s) as [r|] eqn:Hi.
    + destruct Hs as [Hs _]. discriminate.
    + repeat split; assumption.
Qed.
End TimerFacts.

Lemma resume_fields s :
  realTimeEnabled s = false ->
  let resumed := setRealTimeEnabled true s in
  interval resumed = Some tickPeriod
  /\ same_data s resumed /\ clock resumed = clock s.
Proof.
  intros He resumed. subst resumed. unfold setRealTimeEnabled.
  rewrite He. cbn [Bool.eqb]. fields. repeat split.
Qed.

(** C6: in any state the dashboard reaches, switching the flag off leaves no
    timer registered, and however long the pause lasts the score, the window
    and the generator's position stay as they were.  Switching the flag on
    again registers a timer that is due a full period later whatever the
    length of the pause: [d] milliseconds after the resume exactly
    [d / 2000] ticks have fired, none before a full period has passed, and
    the first one after exactly one period. *)
Theorem C6_pause_stops_ticks_resume_restarts : forall rt now k evs p d,
  let s := run rt evs (mount rt now k) in
  let paused := setRealTimeEnabled false s in
  let waited := elapse rt p paused in
  let resumed := setRealTimeEnabled true waited in
  (realTimeEnabled paused = false /\ interval paused = None)
  /\ (interval waited = None
      /\ currentBiasScore waited = currentBiasScore s
      /\ realtimeData waited = realtimeData s
      /\ draws waited = draws s)
  /\ interval resumed = Some tickPeriod
  /\ draws (elapse rt d resumed) = (draws s + 5 * (d / tickPeriod))%nat
  /\ ((d < tickPeriod)%nat ->
      currentBiasScore (elapse rt d resumed) = currentBiasScore s
      /\ realtimeData (elapse rt d resumed) = realtimeData s)
  /\ (exists pt,
        realtimeData (elapse rt tickPeriod resumed)
        = tl (realtimeData s) ++ [pt]
        /\ date pt = (clock s + Z.of_nat p + Z.of_nat tickPeriod)%Z).
Proof.
  intros rt now k evs p d s paused waited resumed.
  pose proof tickPeriod_pos as HP.
  assert (timer_ok s) as Hok
    by (apply run_timer_ok, mount_timer_ok).
  destruct (pause_fields s Hok) as (He & Hi & (_ & Hc & Hw & Hd) & Hclk).
  fold paused in He, Hi, Hc, Hw, Hd, Hclk.
  assert (waited = set_clock (clock paused + Z.of_nat p)%Z paused) as Hwaited
    by (apply elapse_paused; exact Hi).
  assert (realTimeEnabled waited = false) as Hew
    by (rewrite Hwaited; exact He).
  destruct (resume_fields waited Hew) as (Hir & (_ & Hcr & Hwr & Hdr) & Hclkr).
  fold resumed in Hir, Hcr, Hwr, Hdr, Hclkr.
  assert (currentBiasScore resumed = currentBiasScore s) as Hc'
    by (rewrite Hcr, Hwaited; exact Hc).
  assert (realtimeData resumed = realtimeData s) as Hw'
    by (rewrite Hwr, Hwaited; exact Hw).
  assert (draws resumed = draws s) as Hd'
    by (rewrite Hdr, Hwaited; exact Hd).
  assert (clock resumed = (clock s + Z.of_nat p)%Z) as Hclk'
    by (rewrite Hclkr, Hwaited; fields; rewrite Hclk; reflexivity).
  split; [split; assumption|].
  split.
  { rewrite Hwaited. fields. repeat split; assumption. }
  split; [exact Hir|].
  split.
  { rewrite (elapse_draws rt d resumed tickPeriod Hir) by lia.
    rewrite Hd'. do 3 f_equal. lia. }
  split.
  { intros Hlt. rewrite (elapse_waiting rt d resumed tickPeriod Hir Hlt).
    fields. split; assumption. }
  exists (newPoint rt (set_interval (Some tickPeriod)
            (set_clock (clock resumed + Z.of_nat tickPeriod)%Z resumed))).
  rewrite (elapse_due rt resumed tickPeriod Hir) by lia.
  fields. rewrite Hw'. split; [reflexivity|].
  cbn [date newPoint]. fields. rewrite Hclk'. reflexivity.
Qed.

(** ** Worked examples *)

Example getBiasStatus_gender :
  BiasStatus.text (getBiasStatus 0.087) = "Moderate"%string.
Proof.
  destruct (getBiasStatus_cases 0.087) as [(H & _)|[(_ & -> & _)|(H & _)]];
    [lra | reflexivity | lra].
Qed.

Example getBiasStatus_at_lower_threshold :
  BiasStatus.text (getBiasStatus 0.05) = "Moderate"%string.
Proof.
  destruct (getBiasStatus_cases 0.05) as [(H & _)|[(_ & -> & _)|(H & _)]];
    [lra | reflexivity | lra].
Qed.

Example getBiasStatus_at_upper_threshold :
  BiasStatus.text (getBiasStatus 0.1) = "High Risk"%string.
Proof.
  destruct (getBiasStatus_cases 0.1) as [(H & _)|[(H & _)|(_ & -> & _)]];
    [lra | lra | reflexivity].
Qed.

Example range_cleared prev : onDateRangeChange None prev = prev.
Proof. reflexivity. Qed.

Example range_half_open prev :
  onDateRangeChange (Some [Some 1700000000000%Z; None]) prev = prev.
Proof. reflexivity. Qed.

Example range_picked prev :
  dateRange (onDateRangeChange
               (Some [Some 1700000000000%Z; Some 1700086400000%Z]) prev)
  = (1700000000000%Z, 1700086400000%Z).
Proof. reflexivity. Qed.

Example second_point_age_channel :
  option_map age_bias
    (nth_error (timeSeriesData
                  (fst (generateDummyData (utc_runtime 0.5) 0%Z 0))) 1)
  = Some (0.156 - 1 * 0.002 + 0.5 * 0.01).
Proof. rewrite generated_point by lia. reflexivity. Qed.

Example no_tick_just_before_a_period rt now k :
  draws (elapse rt 1999 (mount rt now k)) = (k + 150)%nat.
Proof.
  destruct (mount_fields rt now k) as (_ & _ & _ & Hd & _ & Hi).
  rewrite (elapse_waiting rt 1999 _ tickPeriod Hi) by (unfold tickPeriod; lia).
  exact Hd.
Qed.

Example one_tick_after_a_period rt now k :
  draws (elapse rt 2000 (mount rt now k)) = (k + 155)%nat.
Proof.
  destruct (mount_fields rt now k) as (_ & _ & _ & Hd & _ & Hi).
  change 2000%nat with tickPeriod.
  rewrite (elapse_due rt _ tickPeriod Hi) by (unfold tickPeriod; lia).
  cbn [tick draws set_interval set_clock]. rewrite Hd. lia.
Qed.

(** * Further properties of the component *)

(** ** Status, colours and icons *)

(** X1: a higher score never gets a milder badge, and the three fields of
    the result of [getBiasStatus] go together: two scores with the same
    badge get the same text and the same colour. *)
Theorem getBiasStatus_monotone : forall v w,
  v <= w ->
  (badgeRank (BiasStatus.status (getBiasStatus v))
   <= badgeRank (BiasStatus.status (getBiasStatus w)))%nat
  /\ (BiasStatus.status (getBiasStatus v) = BiasStatus.status (getBiasStatus w)
      -> getBiasStatus v = getBiasStatus w).
Proof.
  intros v w Hvw.
  destruct (getBiasStatus_cases v) as [(Hv & -> & _)|[(Hv & -> & _)|(Hv & -> & _)]];
    destruct (getBiasStatus_cases w) as [(Hw & -> & _)|[(Hw & -> & _)|(Hw & -> & _)]];
    cbn [BiasStatus.status badgeRank];
    try lra; (split; [lia | intros; first [reflexivity | discriminate]]).
Qed.

Lemma getBiasStatus_monotone_witness :
  (badgeRank (BiasStatus.status (getBiasStatus 0.043))
   <= badgeRank (BiasStatus.status (getBiasStatus 0.156)))%nat
  /\ (BiasStatus.status (getBiasStatus 0.043)
      = BiasStatus.status (getBiasStatus 0.156)
      -> getBiasStatus 0.043 = getBiasStatus 0.156).
Proof.
  apply (getBiasStatus_monotone 0.043 0.156). lra.
Defined.

(** X2: the table reads the threshold 0.05 in opposite directions for the
    two columns: a number is shown in red as a p-value exactly when it is
    shown in green as a bias score. *)
Theorem pValue_red_iff_score_green : forall v,
  pValueColor v = "#f5222d"%string
  <-> BiasStatus.color (getBiasStatus v) = "#52c41a"%string.
Proof.
  intros v. unfold pValueColor.
  destruct (getBiasStatus_cases v) as [(Hv & -> & _)|[(Hv & -> & _)|(Hv & -> & _)]];
    cbn [BiasStatus.color]; destruct (Rlt_dec v 0.05); try lra;
    split; intros H; first [reflexivity | discriminate H].
Qed.

(** X3: categories stay distinguishable on screen: different statuses get
    different tag colours, badges and badge texts, different severities
    different timeline colours, and different trends different icons. *)
Theorem encodings_injective :
  (forall a b, tagColor a = tagColor b -> a = b)
  /\ (forall a b, badgeStatus a = badgeStatus b -> a = b)
  /\ (forall a b, badgeText a = badgeText b -> a = b)
  /\ (forall a b, severityColor a = severityColor b -> a = b)
  /\ (forall a b, getTrendIcon a = getTrendIcon b -> a = b).
Proof.
  repeat split; intros [] [] H; first [reflexivity | discriminate H].
Qed.

(** ** The results table *)

Lemma tableRowsFrom_facts ms : forall i,
  map rowMetric (tableRowsFrom i ms) = ms
  /\ map TableRow.key (tableRowsFrom i ms) = seq i (List.length ms).
Proof.
  induction ms as [|m ms IH]; intros i; cbn [tableRowsFrom map seq List.length].
  - split; reflexivity.
  - destruct (IH (S i)) as [Hm Hk]. rewrite Hm, Hk. split; [|reflexivity].
    f_equal. destruct m; reflexivity.
Qed.

(** X4: the table has one row per metric, in order and without loss: the
    metrics can be read back from the rows; the row keys are the positions
    0, 1, ..., hence pairwise distinct.  An empty list gives no row. *)
Theorem tableRows_faithful : forall ms,
  map rowMetric (tableRows ms) = ms
  /\ List.length (tableRows ms) = List.length ms
  /\ map TableRow.key (tableRows ms) = seq 0 (List.length ms)
  /\ NoDup (map TableRow.key (tableRows ms)).
Proof.
  intros ms. unfold tableRows.
  destruct (tableRowsFrom_facts ms 0) as [Hm Hk].
  split; [exact Hm|]. split.
  - rewrite <- (length_map TableRow.key), Hk. apply length_seq.
  - split; [exact Hk|]. rewrite Hk. apply seq_NoDup.
Qed.

(** ** The demographic chart *)

(** X5: in each pie the labels, the values and the colours are equally
    many; the slices of the two pies add up to the gender total and the
    age total; the pies' horizontal domains do not overlap; and the chart
    does not depend on the ethnicity counts.  In every state the dashboard
    reaches both pies add up to 6100. *)
Theorem demographic_chart_consistent :
  (forall d,
     Forall (fun p => List.length (Plot.labels p) = List.length (Plot.values p)
                      /\ List.length (Plot.colors p) = List.length (Plot.values p))
            (createDemographicChart d)
     /\ map (fun p => sumZ (Plot.values p)) (createDemographicChart d)
        = [genderTotal d; ageTotal d]
     /\ map Plot.domain (createDemographicChart d) = [(0, 0.48); (0.52, 1)]
     /\ 0.48 < 0.52)
  /\ (forall d d', gender d = gender d' -> age d = age d' ->
        createDemographicChart d = createDemographicChart d')
  /\ (forall rt now k evs,
        map (fun p => sumZ (Plot.values p))
            (createDemographicChart
               (demographicData (memo (run rt evs (mount rt now k)))))
        = [6100%Z; 6100%Z]).
Proof.
  split; [|split].
  - intros d. split; [repeat constructor|].
    split; [|split; [reflexivity | lra]].
    unfold createDemographicChart, genderTotal, ageTotal, sumZ.
    cbn [map Plot.values fold_right]. f_equal; [|f_equal]; lia.
  - intros d d' Hg Ha. unfold createDemographicChart. rewrite Hg, Ha.
    reflexivity.
  - intros rt now k evs.
    assert (memo (run rt evs (mount rt now k)) = fst (generateDummyData rt now k))
      as Hm.
    { apply (run_invariant rt
        (fun s => memo s = fst (generateDummyData rt now k))).
      - intros s s' (Hm & _) Hs. now rewrite Hm.
      - intros s Hs. exact Hs.
      - apply mount_fields. }
    rewrite Hm, generated_bundle. reflexivity.
Qed.

(** ** Scores and channels in reachable states *)






(** X6: whatever the random generator returns, the headline score of a
    reachable state lies in [0, 0.3]. *)
Theorem score_always_clamped : forall rt now k evs,
  0 <= currentBiasScore (run rt evs (mount rt now k)) <= 0.3.
Proof.
  intros rt now k evs.
  apply (run_invariant rt (fun s => 0 <= currentBiasScore s <= 0.3)).
  - intros s s' (_ & Hc & _) Hs. now rewrite Hc.
  - intros s _. cbn [tick currentBiasScore]. apply clamp_range.
  - destruct (mount_fields rt now k) as (_ & _ & -> & _). lra.
Qed.

(** X7: with draws in [0, 1) the headline score of a reachable state lies
    in [0.082, 0.102], so the badge beside it never reads Excellent.  After
    a tick it reads Moderate when the tick's first draw is below 0.9 and
    High Risk otherwise. *)
Theorem live_badge_never_excellent : forall rt now k evs s,
  unit_draws rt ->
  (0.082 <= currentBiasScore (run rt evs (mount rt now k)) <= 0.102
   /\ BiasStatus.status
        (getBiasStatus (currentBiasScore (run rt evs (mount rt now k))))
      <> success)
  /\ (Math_random rt (draws s) < 0.9 ->
      BiasStatus.text (getBiasStatus (currentBiasScore (tick rt s)))
      = "Moderate"%string)
  /\ (0.9 <= Math_random rt (draws s) ->
      BiasStatus.text (getBiasStatus (currentBiasScore (tick rt s)))
      = "High Risk"%string).
Proof.
  intros rt now k evs s Hu.
  assert (0.082 <= currentBiasScore (run rt evs (mount rt now k)) <= 0.102)
    as Hr.
  { apply (run_invariant rt (fun s => 0.082 <= currentBiasScore s <= 0.102)).
    - intros s1 s' (_ & Hc & _) Hs. now rewrite Hc.
    - intros s1 _. destruct (tick_synced rt s1 Hu) as [-> _].
      pose proof (newScore_range rt s1 Hu). lra.
    - destruct (mount_fields rt now k) as (_ & _ & -> & _). lra. }
  split.
  { split; [exact Hr|].
    destruct (getBiasStatus_cases (currentBiasScore (run rt evs (mount rt now k))))
      as [(H & _)|[(_ & -> & _)|(_ & -> & _)]];
      [lra | discriminate | discriminate]. }
  destruct (tick_synced rt s Hu) as [Hc _]. rewrite Hc.
  pose proof (Hu (draws s)) as Hd. unfold newScore.
  split; intros Hdraw;
    destruct (getBiasStatus_cases (0.092 + (Math_random rt (draws s) - 0.5) * 0.02))
      as [(H & _)|[(H & -> & _)|(H & -> & _)]];
    first [lra | reflexivity].
Qed.

(** After a mount on a UTC page whose generator always returns 0.25, one
    period and a half later with a change of tab in between. *)
Lemma live_badge_never_excellent_witness :
  let rt := utc_runtime 0.25 in
  let s0 := mount rt 1700000000000%Z 0 in
  let s := run rt [Elapse 2000; TabChange "monitoring"; Elapse 1000] s0 in
  (0.082 <= currentBiasScore s <= 0.102
   /\ BiasStatus.status (getBiasStatus (currentBiasScore s)) <> success)
  /\ (Math_random rt (draws s0) < 0.9 ->
      BiasStatus.text (getBiasStatus (currentBiasScore (tick rt s0)))
      = "Moderate"%string)
  /\ (0.9 <= Math_random rt (draws s0) ->
      BiasStatus.text (getBiasStatus (currentBiasScore (tick rt s0)))
      = "High Risk"%string).
Proof.
  intros rt s0 s.
  apply (live_badge_never_excellent rt 1700000000000%Z 0
           [Elapse 2000; TabChange "monitoring"; Elapse 1000] s0).
  intros n. cbn [Math_random rt utc_runtime]. lra.
Defined.




(** ** The series generator on any list of dates *)

Lemma mapSeries_dates rt ds : forall i k,
  map date (fst (mapSeries rt ds i k)) = ds.
Proof.
  induction ds as [|d ds IH]; intros i k; cbn [mapSeries]; [reflexivity|].
  specialize (IH (S i) (k + 5)%nat).
  destruct (mapSeries rt ds (S i) (k + 5)) as [ps k']. cbn in *. now rewrite IH.
Qed.

Lemma mapSeries_nth rt ds : forall i k j d,
  nth_error ds j = Some d ->
  nth_error (fst (mapSeries rt ds i k)) j
  = Some (seriesPoint rt d (i + j) (k + 5 * j)).
Proof.
  induction ds as [|d0 ds IH]; intros i k j d Hj.
  - destruct j; discriminate.
  - cbn [mapSeries]. specialize (IH (S i) (k + 5)%nat).
    destruct (mapSeries rt ds (S i) (k + 5)) as [ps k']. cbn [fst] in *.
    destruct j as [|j]; cbn [nth_error] in *.
    + injection Hj as ->. rewrite Nat.add_0_r, Nat.mul_0_r, Nat.add_0_r.
      reflexivity.
    + rewrite (IH j d Hj). do 2 f_equal; lia.
Qed.

(** X9: for any list of dates, also the empty one, the series generator
    returns one point per date, in order and with the dates as given, and
    makes exactly five draws per point; the point at position [j] is
    computed with index [i + j] from the draws [k + 5 j] to [k + 5 j + 4]. *)
Theorem mapSeries_one_point_per_date : forall rt ds i k,
  map date (fst (mapSeries rt ds i k)) = ds
  /\ List.length (fst (mapSeries rt ds i k)) = List.length ds
  /\ snd (mapSeries rt ds i k) = (k + 5 * List.length ds)%nat
  /\ (forall j, (j < List.length ds)%nat ->
        exists d, nth_error ds j = Some d
          /\ nth_error (fst (mapSeries rt ds i k)) j
             = Some (seriesPoint rt d (i + j) (k + 5 * j)))
  /\ mapSeries rt [] i k = ([], k).
Proof.
  intros rt ds i k.
  split; [apply mapSeries_dates|].
  split; [apply mapSeries_length|].
  split; [apply mapSeries_draws|].
  split; [|reflexivity].
  intros j Hj. destruct (nth_error ds j) as [d|] eqn:Hd.
  - exists d. split; [reflexivity|]. now apply mapSeries_nth.
  - apply nth_error_None in Hd. lia.
Qed.

(** ** The sliding window *)

Lemma tl_skipn (A : Type) (l : list A) n : tl (skipn n l) = skipn (S n) l.
Proof.
  revert l. induction n as [|n IH]; intros l.
  - destruct l as [|a [|b l]]; reflexivity.
  - destruct l as [|a l]; [reflexivity|].
    cbn [skipn]. rewrite IH. reflexivity.
Qed.

Lemma appended_succ rt s n :
  appended rt s (S n) = appended rt s n ++ [newPoint rt (Nat.iter n (tick rt) s)].
Proof.
  unfold appended. rewrite seq_S, map_app. reflexivity.
Qed.

Lemma appended_length rt s n : List.length (appended rt s n) = n.
Proof. unfold appended. rewrite length_map. apply length_seq. Qed.

Lemma slide_ticks rt s n :
  realtimeData s <> [] ->
  realtimeData (Nat.iter n (tick rt) s)
  = skipn n (realtimeData s ++ appended rt s n).
Proof.
  intros Hne. induction n as [|n IH].
  - cbn [Nat.iter nat_rect skipn]. unfold appended. cbn [seq map].
    now rewrite app_nil_r.
  - cbn [Nat.iter nat_rect]. cbn [tick realtimeData].
    fold (Nat.iter n (tick rt) s). rewrite IH, tl_skipn.
    rewrite appended_succ, app_assoc.
    rewrite (skipn_app (S n) (realtimeData s ++ appended rt s n)).
    assert (S n <= List.length (realtimeData s ++ appended rt s n))%nat as Hlen.
    { rewrite length_app, appended_length.
      destruct (realtimeData s); [congruence | cbn [List.length]; lia]. }
    replace (S n - List.length (realtimeData s ++ appended rt s n))%nat
      with 0%nat by lia.
    reflexivity.
Qed.

(** X10: on a non-empty window, [n] ticks in a row leave the old window
    without its [n] oldest points, followed by the [n] new points in the
    order of their ticks; once [n] reaches the length of the window no old
    point is left and the window holds the newest of the appended points. *)
Theorem window_after_ticks : forall rt s n,
  realtimeData s <> [] ->
  realtimeData (Nat.iter n (tick rt) s)
  = skipn n (realtimeData s ++ appended rt s n)
  /\ ((n <= List.length (realtimeData s))%nat ->
      realtimeData (Nat.iter n (tick rt) s)
      = skipn n (realtimeData s) ++ appended rt s n)
  /\ ((List.length (realtimeData s) <= n)%nat ->
      realtimeData (Nat.iter n (tick rt) s)
      = skipn (n - List.length (realtimeData s)) (appended rt s n)).
Proof.
  intros rt s n Hne. pose proof (slide_ticks rt s n Hne) as H.
  split; [exact H|]. split; intros Hn; rewrite H, skipn_app.
  - replace (n - List.length (realtimeData s))%nat with 0%nat by lia.
    reflexivity.
  - rewrite skipn_all2 by exact Hn. reflexivity.
Qed.

(** Two ticks right after a mount on a UTC page whose generator always
    returns 0.5. *)
Lemma window_after_ticks_witness :
  let rt := utc_runtime 0.5 in
  let s := mount rt 1700000000000%Z 0 in
  realtimeData (Nat.iter 2 (tick rt) s)
  = skipn 2 (realtimeData s ++ appended rt s 2)
  /\ ((2 <= List.length (realtimeData s))%nat ->
      realtimeData (Nat.iter 2 (tick rt) s)
      = skipn 2 (realtimeData s) ++ appended rt s 2)
  /\ ((List.length (realtimeData s) <= 2)%nat ->
      realtimeData (Nat.iter 2 (tick rt) s)
      = skipn (2 - List.length (realtimeData s)) (appended rt s 2)).
Proof.
  intros rt s.
  apply (window_after_ticks rt s 2).
  intros H. apply (f_equal (@List.length TimePoint)) in H.
  subst s. rewrite mount_window_length in H. discriminate H.
Defined.

(** ** The trend chart *)

Lemma reachable_window_endpoints rt now k evs :
  exists p0 p1,
    nth_error (realtimeData (run rt evs (mount rt now k))) 0 = Some p0
    /\ newest (realtimeData (run rt evs (mount rt now k))) = Some p1.
Proof.
  pose proof (window_length_run rt now k evs) as Hlen.
  unfold newest. rewrite Hlen.
  destruct (nth_error (realtimeData (run rt evs (mount rt now k))) 0)
    as [p0|] eqn:H0; [|apply nth_error_None in H0; lia].
  destruct (nth_error (realtimeData (run rt evs (mount rt now k))) (30 - 1))
    as [p1|] eqn:H1; [|apply nth_error_None in H1; lia].
  exists p0, p1. split; reflexivity.
Qed.

(** X11: the four traces of the trend chart share one time axis, the dates
    of the window, and each has one value per point; the three threshold
    lines are horizontal, at 0.05, 0.1 and 0.2.  For an empty window the
    lines have no endpoints; in a reachable state every trace has 30 points
    and every line runs from the date of the oldest point to the date of
    the newest. *)
Theorem trend_chart_aligned :
  (forall w,
     Forall (fun t => Plot.x t = map date w
                      /\ List.length (Plot.y t) = List.length (Plot.x t))
            (traces (createTrendChart w))
     /\ map Plot.y0 (shapes (createTrendChart w)) = [0.05; 0.1; 0.2]
     /\ Forall (fun sh => Plot.y1 sh = Plot.y0 sh) (shapes (createTrendChart w)))
  /\ Forall (fun sh => Plot.x0 sh = None /\ Plot.x1 sh = None)
            (shapes (createTrendChart []))
  /\ (forall rt now k evs,
        let w := realtimeData (run rt evs (mount rt now k)) in
        Forall (fun t => List.length (Plot.x t) = 30%nat
                         /\ List.length (Plot.y t) = 30%nat)
               (traces (createTrendChart w))
        /\ exists p0 p1,
             nth_error w 0 = Some p0 /\ newest w = Some p1
             /\ Forall (fun sh => Plot.x0 sh = Some (date p0)
                                  /\ Plot.x1 sh = Some (date p1))
                       (shapes (createTrendChart w))).
Proof.
  split; [|split].
  - intros w. unfold createTrendChart. cbn [traces shapes].
    split; [|split; [reflexivity | repeat constructor]].
    repeat constructor; cbn [Plot.x Plot.y]; now rewrite !length_map.
  - repeat constructor.
  - intros rt now k evs w.
    pose proof (window_length_run rt now k evs) as Hlen. fold w in Hlen.
    split.
    + unfold createTrendChart. cbn [traces].
      repeat constructor; cbn [Plot.x Plot.y]; now rewrite length_map.
    + destruct (reachable_window_endpoints rt now k evs) as (p0 & p1 & H0 & H1).
      fold w in H0, H1. exists p0, p1.
      split; [exact H0|]. split; [exact H1|].
      unfold createTrendChart. cbn [shapes]. rewrite H0, H1.
      repeat constructor.
Qed.

(** ** Time order of the window *)

Section ClockInvariant.
Variable rt : Runtime.
Variable P : Dashboard -> Prop.
Hypothesis P_frame :
  forall s s', same_data s s' -> clock s' = clock s -> P s -> P s'.
Hypothesis P_clock :
  forall s c, (clock s <= c)%Z -> P s -> P (set_clock c s).
Hypothesis P_tick : forall s, P s -> P (tick rt s).

Lemma elapse1_clock_invariant s : P s -> P (elapse1 rt s).
Proof.
  intros Hs.
  assert (P (set_clock (clock s + 1)%Z s)) as Hc by (apply P_clock; [lia | exact Hs]).
  unfold elapse1. destruct (interval s) as [r|]; [|exact Hc].
  destruct (r <=? 1)%nat.
  - apply P_tick. revert Hc. apply P_frame; repeat split.
  - revert Hc. apply P_frame; repeat split.
Qed.

Lemma elapse_clock_invariant ms : forall s, P s -> P (elapse rt ms s).
Proof.
  induction ms as [|ms IH]; intros s Hs; cbn [elapse]; [exact Hs|].
  apply IH, elapse1_clock_invariant, Hs.
Qed.

Lemma step_clock_invariant s e : P s -> P (step rt s e).
Proof.
  intros Hs. destruct e; cbn [step];
    try solve [revert Hs; apply P_frame; repeat split].
  - apply elapse_clock_invariant, Hs.
  - unfold setRealTimeEnabled.
    destruct (Bool.eqb checked (realTimeEnabled s)); [exact Hs|].
    revert Hs. apply P_frame; repeat split.
Qed.

Lemma run_clock_invariant evs : forall s, P s -> P (run rt evs s).
Proof.
  induction evs as [|e evs IH]; intros s Hs; cbn [run fold_left]; [exact Hs|].
  apply IH, step_clock_invariant, Hs.
Qed.
End ClockInvariant.

Lemma sorted_snoc (l : list Z) c :
  StronglySorted Z.le l -> Forall (fun d => (d <= c)%Z) l ->
  StronglySorted Z.le (l ++ [c]).
Proof.
  induction l as [|a l IH]; intros Hs Hf; cbn [app].
  - repeat constructor.
  - inversion Hs as [|? ? Hs' Ha]; subst. inversion Hf as [|? ? Hac Hf']; subst.
    constructor; [now apply IH|].
    apply Forall_app. split; [exact Ha | now repeat constructor].
Qed.

Lemma sorted_map_seq (g : nat -> Z) n : forall a,
  (forall i j, (a <= i <= j)%nat -> (j < a + n)%nat -> (g i <= g j)%Z) ->
  StronglySorted Z.le (map g (seq a n)).
Proof.
  induction n as [|n IH]; intros a Hg; cbn [seq map]; constructor.
  - apply IH. intros i j Hij Hj. apply Hg; lia.
  - apply Forall_map, Forall_forall. intros j Hj. apply in_seq in Hj.
    apply Hg; lia.
Qed.

Lemma tick_window_ordered rt s : window_ordered s -> window_ordered (tick rt s).
Proof.
  intros [Hs Hf]. unfold window_ordered. cbn [tick realtimeData clock].
  assert (StronglySorted Z.le (map date (tl (realtimeData s)))
          /\ Forall (fun p => (date p <= clock s)%Z) (tl (realtimeData s)))
    as [Hs' Hf'].
  { destruct (realtimeData s) as [|p w]; cbn [tl map] in *; [split; assumption|].
    inversion Hs; inversion Hf; subst. split; assumption. }
  split.
  - rewrite map_app. cbn [map date newPoint].
    apply sorted_snoc; [exact Hs'|]. apply Forall_map. exact Hf'.
  - apply Forall_app. split; [exact Hf'|].
    repeat constructor. cbn [date newPoint]. lia.
Qed.

Lemma mount_window_ordered rt now k :
  calendar_monotone rt -> window_ordered (mount rt now k).
Proof.
  intros [H0 Hmono]. unfold window_ordered.
  destruct (mount_fields rt now k) as (_ & -> & _).
  assert (clock (mount rt now k) = now) as ->.
  { unfold mount. rewrite generated_bundle. reflexivity. }
  rewrite generated_series, map_map. cbn [date snapshotPoint]. split.
  - apply sorted_map_seq. intros i j Hij Hj. apply Hmono. lia.
  - apply Forall_map, Forall_forall. intros i Hi. apply in_seq in Hi.
    cbn [date snapshotPoint].
    apply Z.le_trans with (subtract_days rt now 0); [|apply H0].
    apply Hmono. lia.
Qed.

Lemma reachable_window_ordered rt now k evs :
  calendar_monotone rt -> window_ordered (run rt evs (mount rt now k)).
Proof.
  intros Hcal. apply (run_clock_invariant rt window_ordered).
  - intros s s' (_ & _ & Hw & _) Hc. unfold window_ordered.
    now rewrite Hw, Hc.
  - intros s c Hc [Hs Hf]. split; [exact Hs|].
    cbn [set_clock realtimeData clock].
    eapply Forall_impl; [|exact Hf]. cbn beta. intros p Hp. lia.
  - apply tick_window_ordered.
  - now apply mount_window_ordered.
Qed.

(** X12: on a calendar where going back more days gives an earlier time,
    the window of every reachable state is in time order and holds no date
    later than the clock; so the threshold lines of the chart run from left
    to right: the oldest date is not after the newest. *)
Theorem window_in_time_order : forall rt now k evs,
  calendar_monotone rt ->
  let s := run rt evs (mount rt now k) in
  StronglySorted Z.le (map date (realtimeData s))
  /\ Forall (fun p => (date p <= clock s)%Z) (realtimeData s)
  /\ exists p0 p1,
       nth_error (realtimeData s) 0 = Some p0
       /\ newest (realtimeData s) = Some p1
       /\ (date p0 <= date p1 <= clock s)%Z.
Proof.
  intros rt now k evs Hcal s.
  destruct (reachable_window_ordered rt now k evs Hcal) as [Hs Hf].
  fold s in Hs, Hf. split; [exact Hs|]. split; [exact Hf|].
  destruct (reachable_window_endpoints rt now k evs) as (p0 & p1 & H0 & H1).
  fold s in H0, H1. exists p0, p1. split; [exact H0|]. split; [exact H1|].
  assert (In p1 (realtimeData s)) as Hin by (eapply nth_error_In; exact H1).
  split; [|rewrite Forall_forall in Hf; now apply Hf].
  destruct (realtimeData s) as [|q w]; [discriminate|].
  cbn [nth_error] in H0. injection H0 as ->.
  destruct Hin as [->|Hin]; [lia|].
  cbn [map] in Hs. inversion Hs as [|? ? _ Hall]; subst.
  rewrite Forall_forall in Hall. apply Hall. now apply in_map.
Qed.

Lemma utc_calendar_monotone u : calendar_monotone (utc_runtime u).
Proof. split; cbn [subtract_days utc_runtime]; intros; lia. Qed.

(** A UTC page whose generator always returns 0.5, one period after the
    mount. *)
Lemma window_in_time_order_witness :
  let s := run (utc_runtime 0.5) [Elapse 2000]
             (mount (utc_runtime 0.5) 1700000000000%Z 0) in
  StronglySorted Z.le (map date (realtimeData s))
  /\ Forall (fun p => (date p <= clock s)%Z) (realtimeData s)
  /\ exists p0 p1,
       nth_error (realtimeData s) 0 = Some p0
       /\ newest (realtimeData s) = Some p1
       /\ (date p0 <= date p1 <= clock s)%Z.
Proof.
  exact (window_in_time_order (utc_runtime 0.5) 1700000000000%Z 0
           [Elapse 2000] (utc_calendar_monotone 0.5)).
Defined.

(** ** Timer discipline *)

(** X13: in every reachable state a timer is registered exactly when the
    flag is set, and a registered timer is due in at least one and at most
    2000 milliseconds: there is never a timer left over from before a pause
    and never one that is overdue. *)
Theorem timer_registered_iff_enabled : forall rt now k evs,
  let s := run rt evs (mount rt now k) in
  (realTimeEnabled s = true <-> exists r, interval s = Some r)
  /\ (realTimeEnabled s = false <-> interval s = None)
  /\ (forall r, interval s = Some r -> (1 <= r <= 2000)%nat).
Proof.
  intros rt now k evs s.
  assert (timer_ok s) as Hok by (apply run_timer_ok, mount_timer_ok).
  unfold timer_ok in Hok. change tickPeriod with 2000%nat in Hok.
  destruct (interval s) as [r|]; [destruct Hok as [He Hr]|].
  - rewrite He. split; [|split].
    + split; [intros _; now exists r | reflexivity].
    + split; discriminate.
    + intros r' [= <-]. exact Hr.
  - rewrite Hok. split; [|split].
    + split; [discriminate | intros [r Hr]; discriminate].
    + split; reflexivity.
    + discriminate.
Qed.

(** X14: once the component is unmounted no tick fires any more, whatever
    state it was in and however long one waits: only the clock moves. *)
Theorem no_tick_after_unmount : forall rt s ms,
  same_data s (elapse rt ms (unmount s))
  /\ interval (elapse rt ms (unmount s)) = None
  /\ clock (elapse rt ms (unmount s)) = (clock s + Z.of_nat ms)%Z
  /\ cosmeticPart (elapse rt ms (unmount s)) = cosmeticPart s.
Proof.
  intros rt s ms. rewrite elapse_paused by reflexivity.
  repeat split.
Qed.


(** ** Waiting is ticking *)

Lemma map_tl (A B : Type) (f : A -> B) l : map f (tl l) = tl (map f l).
Proof. destruct l; reflexivity. Qed.

Lemma same_values_refl s : same_values s s.
Proof. repeat split. Qed.

Lemma same_values_trans s1 s2 s3 :
  same_values s1 s2 -> same_values s2 s3 -> same_values s1 s3.
Proof.
  intros (Hd & Hc & Hw) (Hd' & Hc' & Hw'). repeat split; congruence.
Qed.

Lemma tick_same_values rt a b :
  same_values a b -> same_values (tick rt a) (tick rt b).
Proof.
  intros (Hd & Hc & Hw). unfold same_values.
  cbn [tick draws currentBiasScore realtimeData].
  rewrite !map_app, !map_tl, Hw. cbn [map]. unfold undated at 2 4.
  unfold newPoint, newScore.
  cbn [overall_bias gender_bias age_bias ethnic_bias socioeconomic_bias].
  rewrite Hd. repeat split.
Qed.

Lemma iter_tick_same_values rt n a b :
  same_values a b ->
  same_values (Nat.iter n (tick rt) a) (Nat.iter n (tick rt) b).
Proof.
  intros H. induction n as [|n IH]; cbn [Nat.iter nat_rect]; [exact H|].
  now apply tick_same_values.
Qed.

Lemma elapse_as_ticks rt ms : forall s r,
  interval s = Some r -> (1 <= r <= tickPeriod)%nat ->
  same_values (elapse rt ms s)
    (Nat.iter ((ms + tickPeriod - r) / tickPeriod) (tick rt) s).
Proof.
  pose proof tickPeriod_pos as HP.
  induction ms as [|ms IH]; intros s r Hi Hr; cbn [elapse].
  - rewrite Nat.div_small by lia. apply same_values_refl.
  - unfold elapse1. rewrite Hi.
    destruct (Nat.leb_spec r 1) as [Hle|Hgt].
    + replace (S ms + tickPeriod - r)%nat with (ms + 1 * tickPeriod)%nat by lia.
      rewrite Nat.div_add by lia. rewrite Nat.add_1_r, Nat.iter_succ_r.
      eapply same_values_trans.
      * apply (IH _ tickPeriod); [reflexivity | lia].
      * replace (ms + tickPeriod - tickPeriod)%nat with ms by lia.
        apply iter_tick_same_values, tick_same_values. repeat split.
    + replace (S ms + tickPeriod - r)%nat
        with (ms + tickPeriod - (r - 1))%nat by lia.
      eapply same_values_trans.
      * apply (IH _ (r - 1)%nat); [reflexivity | lia].
      * apply iter_tick_same_values. repeat split.
Qed.

(** X16: running undisturbed for [ms] milliseconds after the mount shows the
    same numbers as [ms / 2000] ticks in a row: the same score, the same
    channel values along the window (the dates apart) and the same number
    of draws, five per tick. *)
Theorem waiting_is_ticking : forall rt now k ms,
  same_values (elapse rt ms (mount rt now k))
    (Nat.iter (ms / 2000) (tick rt) (mount rt now k))
  /\ draws (elapse rt ms (mount rt now k)) = (k + 150 + 5 * (ms / 2000))%nat.
Proof.
  intros rt now k ms.
  destruct (mount_fields rt now k) as (_ & _ & _ & Hd & _ & Hi).
  pose proof (elapse_as_ticks rt ms _ tickPeriod Hi) as H.
  pose proof (elapse_draws rt ms _ tickPeriod Hi) as H'.
  replace (ms + tickPeriod - tickPeriod)%nat with ms in H, H' by lia.
  change tickPeriod with 2000%nat in H, H'.
  split; [apply H; lia|]. rewrite H', Hd by lia. reflexivity.
Qed.

(** ** Toggling faster than the period *)

Lemma same_data_trans s1 s2 s3 :
  same_data s1 s2 -> same_data s2 s3 -> same_data s1 s3.
Proof.
  intros (Hm & Hc & Hw & Hd) (Hm' & Hc' & Hw' & Hd'). repeat split; congruence.
Qed.

Lemma toggleCycle_quiet rt s ms :
  (ms < tickPeriod)%nat ->
  same_data s (run rt (toggleCycle ms) s)
  /\ realTimeEnabled (run rt (toggleCycle ms) s) = true.
Proof.
  intros Hms. unfold toggleCycle. cbn [run fold_left step].
  set (s2 := setRealTimeEnabled true (setRealTimeEnabled false s)).
  assert (interval s2 = Some tickPeriod /\ same_data s s2
          /\ realTimeEnabled s2 = true) as (Hi & Hd & He).
  { subst s2. unfold setRealTimeEnabled.
    destruct (realTimeEnabled s) eqn:Hen; cbn [Bool.eqb]; fields;
      try rewrite Hen; cbn [Bool.eqb]; fields; repeat split. }
  rewrite (elapse_waiting rt ms s2 tickPeriod Hi Hms). fields.
  split; [exact Hd | exact He].
Qed.

(** X17: a user who switches the updater off and on again and then waits
    less than a full period, over and over, starves it: no tick ever fires,
    so the score, the window and the generator stay as they were, because
    every resume starts a fresh full period. *)
Theorem toggling_starves_updater : forall rt s waits,
  Forall (fun ms => (ms < 2000)%nat) waits ->
  same_data s (run rt (flat_map toggleCycle waits) s).
Proof.
  intros rt s waits Hw. revert s.
  induction Hw as [|ms waits Hms _ IH]; intros s.
  - repeat split.
  - cbn [flat_map]. unfold run. rewrite fold_left_app.
    eapply same_data_trans; [|apply IH].
    apply (toggleCycle_quiet rt s ms). exact Hms.
Qed.

(** Three cycles after a mount, each resumed for just under a period. *)
Lemma toggling_starves_updater_witness :
  same_data (mount (utc_runtime 0.5) 1700000000000%Z 0)
    (run (utc_runtime 0.5) (flat_map toggleCycle [1999; 0; 1500]%nat)
       (mount (utc_runtime 0.5) 1700000000000%Z 0)).
Proof.
  apply (toggling_starves_updater (utc_runtime 0.5)
           (mount (utc_runtime 0.5) 1700000000000%Z 0) [1999; 0; 1500]%nat).
  repeat constructor; lia.
Defined.

(** ** The filters are cosmetic *)

Lemma elapse1_updaterPart rt s s' :
  updaterPart s = updaterPart s' ->
  updaterPart (elapse1 rt s) = updaterPart (elapse1 rt s').
Proof.
  intros H. destruct s, s'. unfold updaterPart in H. cbn in H.
  injection H as -> -> -> -> -> -> ->.
  unfold elapse1. cbn [interval].
  destruct interval1 as [r|]; [destruct (r <=? 1)%nat|]; reflexivity.
Qed.

Lemma elapse_updaterPart rt ms : forall s s',
  updaterPart s = updaterPart s' ->
  updaterPart (elapse rt ms s) = updaterPart (elapse rt ms s').
Proof.
  induction ms as [|ms IH]; intros s s' H; cbn [elapse]; [exact H|].
  apply IH, elapse1_updaterPart, H.
Qed.

Lemma switch_updaterPart b s s' :
  updaterPart s = updaterPart s' ->
  updaterPart (setRealTimeEnabled b s) = updaterPart (setRealTimeEnabled b s').
Proof.
  intros H. destruct s, s'. unfold updaterPart in H. cbn in H.
  injection H as -> -> -> -> -> -> ->.
  unfold setRealTimeEnabled. cbn [realTimeEnabled].
  destruct (Bool.eqb b realTimeEnabled1); reflexivity.
Qed.

Lemma cosmetic_step_updaterPart rt s e :
  cosmetic e = true -> updaterPart (step rt s e) = updaterPart s.
Proof. destruct e; intros H; first [discriminate H | reflexivity]. Qed.

(** X18: the tab, the modal and the filters are not wired to the updater:
    dropping every tab, modal and filter event from a run of events changes
    nothing of the flag, the generated bundle, the score, the window, the
    timer, the clock or the generator. *)
Theorem updater_ignores_cosmetic_events : forall rt evs s,
  updaterPart (run rt evs s)
  = updaterPart (run rt (filter (fun e => negb (cosmetic e)) evs) s).
Proof.
  intros rt evs s.
  assert (forall s s', updaterPart s = updaterPart s' ->
            updaterPart (run rt evs s)
            = updaterPart (run rt (filter (fun e => negb (cosmetic e)) evs) s'))
    as H; [|apply H; reflexivity].
  clear s. induction evs as [|e evs IH]; intros s s' Hs;
    cbn [run fold_left filter]; [exact Hs|].
  destruct (cosmetic e) eqn:He; cbn [negb].
  - apply IH. now rewrite cosmetic_step_updaterPart.
  - cbn [fold_left]. apply IH.
    destruct e; try discriminate He; cbn [step].
    + now apply elapse_updaterPart.
    + now apply switch_updaterPart.
Qed.

Lemma elapse_cosmeticPart rt ms : forall s,
  cosmeticPart (elapse rt ms s) = cosmeticPart s.
Proof.
  induction ms as [|ms IH]; intros s; cbn [elapse]; [reflexivity|].
  rewrite IH. unfold elapse1.
  destruct (interval s) as [r|]; [destruct (r <=? 1)%nat|]; reflexivity.
Qed.

Lemma timing_step_cosmeticPart rt s e :
  cosmetic e = false -> cosmeticPart (step rt s e) = cosmeticPart s.
Proof.
  destruct e; intros H; try discriminate H; cbn [step].
  - apply elapse_cosmeticPart.
  - unfold setRealTimeEnabled.
    destruct (Bool.eqb checked (realTimeEnabled s)); reflexivity.
Qed.

Lemma cosmetic_step_cosmeticPart rt s s' e :
  cosmetic e = true -> cosmeticPart s = cosmeticPart s' ->
  cosmeticPart (step rt s e) = cosmeticPart (step rt s' e).
Proof.
  intros He H. destruct s, s'. unfold cosmeticPart in H. cbn in H.
  injection H as -> -> ->.
  destruct e; first [discriminate He | reflexivity].
Qed.

(** X19: conversely, time and the switch never touch the tab, the modal or
    the filters: what they show after a run of events is what the tab,
    modal and filter events of the run alone would give. *)
Theorem cosmetic_state_ignores_updater : forall rt evs s,
  cosmeticPart (run rt evs s)
  = cosmeticPart (run rt (filter cosmetic evs) s).
Proof.
  intros rt evs s.
  assert (forall s s', cosmeticPart s = cosmeticPart s' ->
            cosmeticPart (run rt evs s)
            = cosmeticPart (run rt (filter cosmetic evs) s'))
    as H; [|apply H; reflexivity].
  clear s. induction evs as [|e evs IH]; intros s s' Hs;
    cbn [run fold_left filter]; [exact Hs|].
  destruct (cosmetic e) eqn:He.
  - cbn [fold_left]. apply IH. now apply cosmetic_step_cosmeticPart.
  - apply IH. now rewrite timing_step_cosmeticPart.
Qed.

(** ** Series of picker events *)

Lemma onDateRangeChange_cases dates prev :
  onDateRangeChange dates prev
  = match completeRange dates with
    | Some r => set_dateRange r prev
    | None => prev
    end.
Proof.
  destruct dates as [[|[a|] [|[b|] [|c l]]]|]; reflexivity.
Qed.

(** X20: after any series of picker events the date range is the last
    complete selection of the series, or the old range when no selection
    was complete; the other filters are as before. *)
Theorem date_range_is_last_complete_selection : forall rt ds s,
  let f := filters (run rt (map RangeChange ds) s) in
  dateRange f = lastComplete ds (dateRange (filters s))
  /\ protectedAttributes f = protectedAttributes (filters s)
  /\ outcomeVariable f = outcomeVariable (filters s)
  /\ biasThreshold f = biasThreshold (filters s)
  /\ minimumSampleSize f = minimumSampleSize (filters s).
Proof.
  intros rt ds. induction ds as [|d ds IH]; intros s f.
  - repeat split.
  - subst f.
    change (run rt (map RangeChange (d :: ds)) s)
      with (run rt (map RangeChange ds) (step rt s (RangeChange d))).
    destruct (IH (step rt s (RangeChange d))) as (H1 & H2 & H3 & H4 & H5).
    rewrite H1, H2, H3, H4, H5. cbn [step filters set_filters].
    rewrite onDateRangeChange_cases. unfold lastComplete. cbn [fold_left].
    destruct (completeRange d) as [r|]; repeat split.
Qed.

(** ** Independent handlers *)


(** ** The modal *)

(** X22: the modal is open exactly after a chart's Full View button was
    used and not yet cancelled; cancelling twice is cancelling once; and
    opening a chart from a closed modal and cancelling it gives back the
    state one started from. *)
Theorem modal_open_close : forall rt s v,
  selectedVisualization s = None ->
  modalOpen s = false
  /\ modalOpen (step rt s (OpenVisualization v)) = true
  /\ modalOpen (step rt (step rt s (OpenVisualization v)) CloseVisualization)
     = false
  /\ step rt (step rt s (OpenVisualization v)) CloseVisualization = s
  /\ step rt (step rt s CloseVisualization) CloseVisualization
     = step rt s CloseVisualization.
Proof.
  intros rt s v Hs. unfold modalOpen. rewrite Hs.
  repeat split. cbn [step]. destruct s. cbn in Hs. subst. reflexivity.
Qed.

(** Opening the heat map right after a mount. *)
Lemma modal_open_close_witness :
  let rt := utc_runtime 0.5 in
  let s := mount rt 1700000000000%Z 0 in
  modalOpen s = false
  /\ modalOpen (step rt s (OpenVisualization heatmapViz)) = true
  /\ modalOpen (step rt (step rt s (OpenVisualization heatmapViz))
                  CloseVisualization) = false
  /\ step rt (step rt s (OpenVisualization heatmapViz)) CloseVisualization = s
  /\ step rt (step rt s CloseVisualization) CloseVisualization
     = step rt s CloseVisualization.
Proof.
  intros rt s.
  apply (modal_open_close rt s heatmapViz).
  subst s. unfold mount. rewrite generated_bundle. reflexivity.
Defined.
